(** * arcgis-geodepressions: a shallow embedding of the two geoprocessing scripts

    [IdentifyGeoDepressions.py] extracts candidate depressions from a
    bathymetry grid; [AnalyseGeoDepressions.py] characterises them.

    Conventions of the embedding

    - Python [int] is [Z] (Python 2 integers promote to [long], so they do
      not wrap); Python [float] is idealised as a real number: rounding,
      overflow, signed zeros and NaN of IEEE doubles are outside the model,
      and so is the narrowing to the 32-bit FLOAT fields of the attribute
      tables.  [math.pi] is the real number [PI].  Where rounding or the
      sign of zero decides a property, the module [Double] gives the same
      primitives on binary64 numbers.
    - A raised exception is the [Raise] branch of [result]; the scripts'
      [try ... except ... finally] is the function [run] of each module.
    - The geoprocessing engine ([arcpy]) is not part of the repository.  Its
      tools appear with the behaviour their documentation gives them, each one
      introduced by a comment naming the tool, and the products the scripts
      merely receive from it (statistics, zonal rasters, smoothed polygons)
      are inputs of the model. *)

From Stdlib Require Import Reals Lra Lia ZArith List String Bool DecimalString.
From Stdlib Require PrimFloat FloatClass.
Import ListNotations.

Local Open Scope R_scope.

(** ** Python values, exceptions and the [math] module *)

Module Py.

Inductive exn : Type :=
| ZeroDivisionError
| ValueError
| IndexError
| TypeError
| RuntimeError
| OverflowError
| LicenseError
| NotNegative
| NoFeatures.

Inductive result (A : Type) : Type :=
| Ok (a : A)
| Raise (e : exn).

Arguments Ok {A} a.
Arguments Raise {A} e.

Definition bind {A B : Type} (c : result A) (k : A -> result B) : result B :=
  match c with
  | Ok a => k a
  | Raise e => Raise e
  end.

(** A number is an [int] or a [float]; the distinction decides what [/]
    means in Python 2. *)
Inductive num : Type :=
| PyInt (n : Z)
| PyFloat (r : R).

(** [float(x)] *)
Definition float (x : num) : R :=
  match x with
  | PyInt n => IZR n
  | PyFloat r => r
  end.

Definition is_float (x : num) : Prop :=
  match x with
  | PyInt _ => False
  | PyFloat _ => True
  end.

(** [x ** 2] *)
Definition pow2 (x : num) : num :=
  match x with
  | PyInt n => PyInt (n ^ 2)
  | PyFloat r => PyFloat (r ^ 2)
  end.

(** [a + b] *)
Definition add (a b : num) : num :=
  match a, b with
  | PyInt x, PyInt y => PyInt (x + y)
  | _, _ => PyFloat (float a + float b)
  end.

(** [a / b] without [from __future__ import division]: floor division on
    two integers ([Z.div] rounds towards minus infinity, as Python does),
    true division as soon as one operand is a float. *)
Definition div (a b : num) : result num :=
  match a, b with
  | PyInt x, PyInt y =>
      if Z.eq_dec y 0 then Raise ZeroDivisionError else Ok (PyInt (x / y))
  | _, _ =>
      if Req_dec_T (float b) 0 then Raise ZeroDivisionError
      else Ok (PyFloat (float a / float b))
  end.

(** [abs(x)] *)
Definition abs (x : num) : num :=
  match x with
  | PyInt n => PyInt (Z.abs n)
  | PyFloat r => PyFloat (Rabs r)
  end.

(** [l[i]] *)
Definition index {A : Type} (l : list A) (i : nat) : result A :=
  match nth_error l i with
  | Some a => Ok a
  | None => Raise IndexError
  end.

(** [math.sqrt]: a ValueError (math domain error) below zero. *)
Definition math_sqrt (x : R) : result R :=
  if Rlt_dec x 0 then Raise ValueError else Ok (sqrt x).

(** [math.hypot] *)
Definition math_hypot (x y : R) : R := sqrt (x * x + y * y).

(** [math.atan2(y, x)]: the angle of the point (x, y), in (-PI, PI]. *)
Definition math_atan2 (y x : R) : R :=
  if Rlt_dec 0 x then atan (y / x)
  else if Rlt_dec x 0 then
         if Rle_dec 0 y then atan (y / x) + PI else atan (y / x) - PI
  else if Rlt_dec 0 y then PI / 2
  else if Rlt_dec y 0 then - (PI / 2)
  else 0.

End Py.

Import Py.

Declare Scope py_scope.
Delimit Scope py_scope with py.
Notation "x <- c ;; k" := (bind c (fun x => k))
  (at level 61, c at next level, right associativity) : py_scope.
Local Open Scope py_scope.

(** ** AnalyseGeoDepressions.py: the geometry primitives *)

Module Analyse.

(** [azimuth(coords)], [coords] being [x1, x2, y1, y2]. *)
Definition azimuth (coords : list R) : result R :=
  c1 <- index coords 1 ;;
  c0 <- index coords 0 ;;
  c3 <- index coords 3 ;;
  c2 <- index coords 2 ;;
  let radians := math_atan2 (c1 - c0) (c3 - c2) in
  let degrees := (radians * 180) / PI in
  Ok (if Rlt_dec degrees 0 then degrees + 180 else degrees).

(** [eccentricity(major_axis, minor_axis)] *)
Definition eccentricity (major_axis minor_axis : num) : result R :=
  q <- div (PyFloat (float major_axis ^ 2 - float minor_axis ^ 2))
           (PyFloat (float major_axis ^ 2)) ;;
  math_sqrt (float q).

(** [thinness_ratio(area, perimeter)]: [(4 * math.pi)] is a float, so the
    product is one whatever the quotient is. *)
Definition thinness_ratio (area perimeter : num) : result R :=
  q <- div area (pow2 perimeter) ;;
  Ok ((4 * PI) * float q).

Definition IRREGULAR : string :=
  "Irregular shape and/or low dia/dep ratio. Unlikely to be caused by fluid escape".
Definition SEMI_REGULAR : string :=
  "Semi-regular shape. Depression needs further investigation".
Definition REGULAR : string :=
  "Regular shape. Potentially a geo-feature caused by fluid escape".

(** [shape_descriptor(poly_thinness, poly_dd_ratio)] *)
Definition shape_descriptor (poly_thinness poly_dd_ratio : num) : string :=
  if Rlt_dec (float poly_thinness) 0.5 then IRREGULAR
  else if Rgt_dec (float poly_dd_ratio) 100 then IRREGULAR
  else if Rlt_dec (float poly_thinness) 0.75 then SEMI_REGULAR
  else REGULAR.

(** [diameter_depth_ratio(diameter, depth)] *)
Definition diameter_depth_ratio (diameter depth : num) : result num :=
  q <- div diameter depth ;;
  Ok (abs q).

(** *** The engine's data *)

(** A raster is its cells in row-major order; [None] is NoData.  A cell
    number also stands for the point at the centre of that cell. *)
Definition Raster : Type := list (option R).
Definition Location : Type := nat.

(** The geometry object behind [SHAPE@]: [area], [length],
    [hullRectangle] (the eight numbers of the string, already split and
    converted), and which cell centres the polygon intersects. *)
Module Shape.
Record t : Type := {
  area : R;
  length : R;
  hullRectangle : list R;
  covers : Location -> bool
}.
End Shape.

(** A depression polygon as the script receives it from the smoothing
    tool: its geometry and the depth joined by the identification script
    ([None] is a null field). *)
Record Feature : Type := {
  shape_object : Shape.t;
  depth_field : option num
}.

(** The fields the update cursor reads and writes, [row[0]] to [row[11]]. *)
Record Row : Type := {
  SHAPE : Shape.t;
  DEP_ID : Z;
  AREA_M : R;
  PERIMETER : R;
  MAJ_AXIS : R;
  MIN_AXIS : R;
  ECC : R;
  AZIMUTH : R;
  THIN_RAT : R;
  MORP_CHAR : string;
  DIDP_RAT : num;
  POCK_DEP : num
}.

(** *** Map algebra (arcpy.sa) *)

Definition cellwise {A B C : Type} (f : A -> B -> C)
    (a : list (option A)) (b : list (option B)) : list (option C) :=
  map (fun xy => match xy with
                 | (Some u, Some v) => Some (f u v)
                 | _ => None
                 end) (combine a b).

(** [a - b] on rasters *)
Definition Minus (a b : Raster) : Raster := cellwise Rminus a b.

(** [abs(a)] on a raster *)
Definition Abs (a : Raster) : Raster := map (option_map Rabs) a.

(** [a < c] on a raster: a boolean raster *)
Definition LessThan (a : Raster) (c : R) : list (option bool) :=
  map (option_map (fun v => if Rlt_dec v c then true else false)) a.

(** [Con(condition, true_raster)]: with no false raster the cells where the
    condition does not hold are NoData. *)
Definition Con (cond : list (option bool)) (true_raster : Raster) : Raster :=
  map (fun cv => match cv with
                 | (Some true, v) => v
                 | _ => None
                 end) (combine cond true_raster).

(** A point of [RasterToPoint_conversion]: one per cell that has data,
    [GRID_CODE] being the cell value. *)
Record Point : Type := {
  location : Location;
  GRID_CODE : R
}.

Fixpoint RasterToPoint_from (cell : nat) (r : Raster) : list Point :=
  match r with
  | [] => []
  | Some v :: rest =>
      {| location := cell; GRID_CODE := v |} :: RasterToPoint_from (S cell) rest
  | None :: rest => RasterToPoint_from (S cell) rest
  end.

Definition RasterToPoint_conversion (r : Raster) : list Point :=
  RasterToPoint_from 0 r.

(** [ExtractMultiValuesToPoints(points, [[raster, "DEPTH"]], "NONE")]: the
    new field holds the value of the cell under the point, not interpolated. *)
Record DeepPoint : Type := {
  point : Point;
  DEPTH : option R
}.

Definition sample {A : Type} (r : list (option A)) (l : Location) : option A :=
  match nth_error r l with
  | Some v => v
  | None => None
  end.

Definition ExtractMultiValuesToPoints (pts : list Point) (r : Raster)
    : list DeepPoint :=
  map (fun p => {| point := p; DEPTH := sample r (location p) |}) pts.

(** Lines 126-136.  The two zonal rasters come from the engine. *)
Definition depression_depth (zonal_min zonal_max bathy_dataset : Raster) : Raster :=
  Con (LessThan
         (Abs (Minus (Abs (Minus zonal_max bathy_dataset))
                     (Abs (Minus zonal_max zonal_min))))
         0.001)
      (Abs (Minus zonal_max zonal_min)).

Definition deepest_point (zonal_min zonal_max bathy_dataset : Raster)
    : list DeepPoint :=
  ExtractMultiValuesToPoints
    (RasterToPoint_conversion (depression_depth zonal_min zonal_max bathy_dataset))
    bathy_dataset.

(** *** The update cursor (lines 155-186) *)

(** [cursor.updateRow(row)].  DEP_ID is a SHORT field (line 144): a value
    that does not fit sixteen bits is refused by the engine. *)
Definition updateRow (row : Row) : result Row :=
  if (DEP_ID row <=? 32767)%Z then Ok row else Raise RuntimeError.

Definition update (f : Feature) (dep_id : Z) : result Row :=
  let row2 := Shape.area (shape_object f) in
  let row3 := Shape.length (shape_object f) in
  match Shape.hullRectangle (shape_object f) with
  | [x1; y1; x2; y2; x3; y3; x4; y4] =>
      let distance1 := math_hypot (x1 - x2) (y1 - y2) in
      let distance2 := math_hypot (x2 - x3) (y2 - y3) in
      let '(min_axis, maj_axis, azimuth_coords) :=
        if Rle_dec distance1 distance2
        then (distance1, distance2, [x2; x3; y2; y3])
        else (distance2, distance1, [x1; x2; y1; y2]) in
      row6 <- eccentricity (PyFloat maj_axis) (PyFloat min_axis) ;;
      row7 <- azimuth azimuth_coords ;;
      row8 <- thinness_ratio (PyFloat row2) (PyFloat row3) ;;
      average_diameter <- div (add (PyFloat maj_axis) (PyFloat min_axis)) (PyInt 2) ;;
      (* dividing by a null field is a TypeError *)
      row11 <- match depth_field f with
               | Some d => Ok d
               | None => Raise TypeError
               end ;;
      row10 <- diameter_depth_ratio average_diameter row11 ;;
      let row9 := shape_descriptor (PyFloat row8) row10 in
      updateRow {| SHAPE := shape_object f; DEP_ID := dep_id;
                   AREA_M := row2; PERIMETER := row3;
                   MAJ_AXIS := maj_axis; MIN_AXIS := min_axis;
                   ECC := row6; AZIMUTH := row7; THIN_RAT := row8;
                   MORP_CHAR := row9; DIDP_RAT := row10; POCK_DEP := row11 |}
  | _ => Raise ValueError (* wrong number of values to unpack *)
  end.

(** [for row in cursor: ...; dep_id += 1] *)
Fixpoint cursor_loop (rows : list Feature) (dep_id : Z) : result (list Row) :=
  match rows with
  | [] => Ok []
  | f :: rest =>
      row <- update f dep_id ;;
      others <- cursor_loop rest (dep_id + 1) ;;
      Ok (row :: others)
  end.

(** *** Assembling the three layers (lines 191-225) *)

(** The ten fields of the field mapping (line 193): a spatial join given a
    field mapping brings over these and nothing else. *)
Module Mapped.
Record t : Type := {
  POCK_DEP : num;
  DEP_ID : Z;
  MAJ_AXIS : R;
  MIN_AXIS : R;
  ECC : R;
  AZIMUTH : R;
  THIN_RAT : R;
  AREA_M : R;
  PERIMETER : R;
  MORP_CHAR : string
}.
End Mapped.

Definition field_mappings (r : Row) : Mapped.t :=
  {| Mapped.POCK_DEP := POCK_DEP r; Mapped.DEP_ID := DEP_ID r;
     Mapped.MAJ_AXIS := MAJ_AXIS r; Mapped.MIN_AXIS := MIN_AXIS r;
     Mapped.ECC := ECC r; Mapped.AZIMUTH := AZIMUTH r;
     Mapped.THIN_RAT := THIN_RAT r; Mapped.AREA_M := AREA_M r;
     Mapped.PERIMETER := PERIMETER r; Mapped.MORP_CHAR := MORP_CHAR r |}.

(** A record of [SpatialJoin_analysis] with its defaults (one to one, keep
    all targets, intersect, merge rule first): the target point, the
    number of polygons it intersects, and the mapped fields of the first of
    them, null when there is none. *)
Record JoinedPoint : Type := {
  target : Location;
  TARGET_FID : nat;
  Join_Count : nat;
  joined : option Mapped.t
}.

Definition intersecting (l : Location) (polys : list Row) : list Row :=
  filter (fun r => Shape.covers (SHAPE r) l) polys.

Fixpoint SpatialJoin_from (fid : nat) (pts : list DeepPoint) (polys : list Row)
    : list JoinedPoint :=
  match pts with
  | [] => []
  | p :: rest =>
      let hits := intersecting (location (point p)) polys in
      {| target := location (point p); TARGET_FID := fid;
         Join_Count := List.length hits;
         joined := option_map field_mappings (hd_error hits) |}
      :: SpatialJoin_from (S fid) rest polys
  end.

Definition SpatialJoin_analysis (pts : list DeepPoint) (polys : list Row)
    : list JoinedPoint :=
  SpatialJoin_from 0 pts polys.

(** A deepest point once [DeleteField_management] has dropped
    [TARGET_FID] and [Join_Count]. *)
Record OutPoint : Type := {
  where_ : Location;
  fields : option Mapped.t
}.

Definition DeleteField_management (pts : list JoinedPoint) : list OutPoint :=
  map (fun j => {| where_ := target j; fields := joined j |}) pts.

(** The DEP_ID field of a joined point, [None] being null. *)
Definition point_DEP_ID (p : OutPoint) : option Z :=
  option_map Mapped.DEP_ID (fields p).

Definition key_dec (a b : option Z) : {a = b} + {a <> b}.
Proof. decide equality. apply Z.eq_dec. Defined.

(** [DeleteIdentical_management(points, ["DEP_ID"])]: of the records that
    agree on DEP_ID the first one stays. *)
Fixpoint DeleteIdentical_seen (seen : list (option Z)) (pts : list OutPoint)
    : list OutPoint :=
  match pts with
  | [] => []
  | p :: rest =>
      if in_dec key_dec (point_DEP_ID p) seen
      then DeleteIdentical_seen seen rest
      else p :: DeleteIdentical_seen (point_DEP_ID p :: seen) rest
  end.

Definition DeleteIdentical_management (pts : list OutPoint) : list OutPoint :=
  DeleteIdentical_seen [] pts.

(** [FeatureToPoint_management(polygons, None, "INSIDE")]: one point per
    polygon, inside it, with the polygon's attributes. *)
Record Centroid : Type := {
  of_polygon : Row
}.

Definition FeatureToPoint_management (polys : list Row) : list Centroid :=
  map (fun r => {| of_polygon := r |}) polys.

(** *** The script *)

(** What the script reads from the engine. *)
Record Inputs : Type := {
  maximum_value : R;                  (* bathy_dataset.maximum *)
  spatial_available : bool;           (* CheckExtension("spatial") == "Available" *)
  bathy_dataset : Raster;
  zonal_min : Raster;                 (* ZonalStatistics ... MINIMUM *)
  zonal_max : Raster;                 (* ZonalStatistics ... MAXIMUM *)
  smoothed_polygons : list Feature    (* SmoothPolygon_cartography *)
}.

(** The three layers of [CopyFeatures_management]. *)
Record Outputs : Type := {
  Depression_Polygons : list Row;
  Depression_Deepest_Point : list OutPoint;
  Depression_Centroid : list Centroid
}.

(** The body of the [try] block.  The optional symbology comes after the
    three layers are saved and swallows its own failures, so it is left out. *)
Definition script (i : Inputs) : result Outputs :=
  if Rgt_dec (maximum_value i) 0 then Raise NotNegative
  else if negb (spatial_available i) then Raise LicenseError
  else
    let points := deepest_point (zonal_min i) (zonal_max i) (bathy_dataset i) in
    depression_polygons <- cursor_loop (smoothed_polygons i) 1 ;;
    let joined_points := SpatialJoin_analysis points depression_polygons in
    let deepest := DeleteIdentical_management (DeleteField_management joined_points) in
    let centroid_point := FeatureToPoint_management depression_polygons in
    Ok {| Depression_Polygons := depression_polygons;
          Depression_Deepest_Point := deepest;
          Depression_Centroid := centroid_point |}.

(** The whole [try ... except ... finally]: every exception ends in a
    handler that reports it, and nothing has been saved by then. *)
Inductive Outcome : Type :=
| Saved (out : Outputs)
| Reported (e : exn).

Definition run (i : Inputs) : Outcome :=
  match script i with
  | Ok out => Saved out
  | Raise e => Reported e
  end.

End Analyse.

(** ** IdentifyGeoDepressions.py *)

Module Identify.

(** A polygon of [RasterToPolygon_conversion] over the reclassified
    difference raster: its area, and the values ([GRID_CODE]) of the zonal
    minimum points that fall in it. *)
Record Candidate : Type := {
  SHAPE_area : R;
  zonal_points : list R
}.

Record Inputs : Type := {
  maximum : R;                          (* GetRasterProperties ... MAXIMUM *)
  spatial_available : bool;             (* CheckExtension("spatial") == "Available" *)
  z_limit : Z;
  max_area : Z;
  cell_size : R;                        (* describe.meanCellWidth *)
  raster_polygons : list Candidate      (* fill, minus, reclassify, to polygon *)
}.

(** A saved polygon.  The field mapping of the join (lines 104-114) holds
    POCK_DEP alone, so beside the geometry the joined polygon keeps that
    field only: the depth joined with the MINIMUM merge rule, null without a
    point. *)
Record Polygon : Type := {
  candidate : Candidate;
  POCK_DEP : option R
}.

Definition min_area (i : Inputs) : R := (cell_size i * 2) ^ 2.

(** The where clause ["AREA_M >= {} AND AREA_M <= {}"] of the feature layer. *)
Definition sql_exp (i : Inputs) (c : Candidate) : bool :=
  (if Rge_dec (SHAPE_area c) (min_area i) then true else false)
  && (if Rle_dec (SHAPE_area c) (IZR (max_area i)) then true else false).

Definition MakeFeatureLayer_management (i : Inputs) : list Candidate :=
  filter (sql_exp i) (raster_polygons i).

(** Merge rule MINIMUM over the joined points. *)
Definition MINIMUM (values : list R) : option R :=
  match values with
  | [] => None
  | v :: rest => Some (fold_left Rmin rest v)
  end.

Definition SpatialJoin_analysis (kept : list Candidate) : list Polygon :=
  map (fun c => {| candidate := c; POCK_DEP := MINIMUM (zonal_points c) |}) kept.

(** What [GetCount_management] returns: a geoprocessing Result object whose
    output is the row count.  The script keeps the object and never turns
    it into a number. *)
Record Result : Type := {
  getOutput : nat
}.

Definition GetCount_management (layer : list Candidate) : Result :=
  {| getOutput := List.length layer |}.

(** [result < n] with a Result object on the left and an [int] on the
    right.  The object defines no ordering, and Python 2 then orders values
    of unrelated types by a fixed rule in which a number comes before
    anything that is not a number: the object is never below the integer,
    whatever count it holds. *)
Definition Result_lt_int (r : Result) (n : Z) : bool := false.

(** The body of the [try] block from line 53 on.  The engine tools are
    taken to return normally on the layers they are given. *)
Definition script (i : Inputs) : result (list Polygon) :=
  if Rgt_dec (maximum i) 0 then Raise NotNegative
  else if negb (spatial_available i) then Raise LicenseError
  else
    let depression_polygons := MakeFeatureLayer_management i in
    let feature_count := GetCount_management depression_polygons in
    if Result_lt_int feature_count 1 then Raise NoFeatures
    else Ok (SpatialJoin_analysis depression_polygons).

(** Lines 49-50, [int(arcpy.GetParameterAsText(n))]: a parameter text is
    given by the integer [int] reads in it, [None] when [int] rejects it. *)
Definition int (text : option Z) : result Z :=
  match text with
  | Some n => Ok n
  | None => Raise ValueError
  end.

(** The inputs once [z_limit] and [max_area] are read. *)
Definition with_parameters (z m : Z) (i : Inputs) : Inputs :=
  {| maximum := maximum i; spatial_available := spatial_available i;
     z_limit := z; max_area := m; cell_size := cell_size i;
     raster_polygons := raster_polygons i |}.

(** The [try] block from the two parameter texts on; [i] holds what the
    engine delivers, its [z_limit] and [max_area] being the parsed texts. *)
Definition tool (z_limit_text max_area_text : option Z) (i : Inputs)
    : result (list Polygon) :=
  z <- int z_limit_text ;;
  m <- int max_area_text ;;
  script (with_parameters z m i).

Inductive Outcome : Type :=
| Saved (out_polygons : list Polygon)
| Reported (e : exn).

Definition run (i : Inputs) : Outcome :=
  match script i with
  | Ok out => Saved out
  | Raise e => Reported e
  end.

(** The text the handler of each custom exception passes to [AddError]. *)
Definition error (e : exn) : option string :=
  match e with
  | LicenseError => Some "Spatial Analyst Extension Unavailable."%string
  | NotNegative => Some "Bathy raster must be negative values only."%string
  | NoFeatures => Some "There were no depressions within the size range found."%string
  | _ => None
  end.

End Identify.

(** ** The primitives on binary64 numbers *)

Module Double.

Import PrimFloat FloatClass.
Local Open Scope float_scope.

(** [math.pi] and its half, the values the C library returns for the
    special cases of [atan2]. *)
Definition pi : float := 0x1.921fb54442d18p+1.
Definition half_pi : float := 0x1.921fb54442d18p+0.

Definition finite (x : float) : bool :=
  match classify x with
  | PInf | NInf | NaN => false
  | _ => true
  end.

(** [x ** 2] on a float: [pow] of the C library, taken as the correctly
    rounded square; a finite base whose square is out of range raises
    OverflowError, a square that vanishes is returned as zero. *)
Definition pow2 (x : float) : result float :=
  let r := x * x in
  if finite x && negb (finite r) then Raise OverflowError else Ok r.

(** [a / b] on floats *)
Definition div (a b : float) : result float :=
  if b =? 0 then Raise ZeroDivisionError else Ok (a / b).

(** [math.sqrt] *)
Definition math_sqrt (x : float) : result float :=
  if x <? 0 then Raise ValueError else Ok (sqrt x).

(** [eccentricity(major_axis, minor_axis)], line 51, on floats. *)
Definition eccentricity (major_axis minor_axis : float) : result float :=
  a <- pow2 major_axis ;;
  b <- pow2 minor_axis ;;
  c <- pow2 major_axis ;;
  q <- div (a - b) c ;;
  math_sqrt q.

(** [thinness_ratio(area, perimeter)], line 63, on floats. *)
Definition thinness_ratio (area perimeter : float) : result float :=
  p <- pow2 perimeter ;;
  q <- div area p ;;
  Ok ((4 * pi) * q).

Section Libm.

(** [atan2] of the C library where the standard does not fix its value to
    the last bit. *)
Variable atan2_libm : float -> float -> float.

(** [math.atan2(y, x)]: the cases the C standard fixes, a zero [y] (whose
    sign the result takes) and a zero [x], written out. *)
Definition math_atan2 (y x : float) : float :=
  if y =? 0 then
    let minus := match classify y with NZero => true | _ => false end in
    if (x <? 0) || match classify x with NZero => true | _ => false end
    then (if minus then - pi else pi)
    else if (0 <? x) || (x =? 0)
         then (if minus then - 0 else 0)
         else atan2_libm y x
  else if x =? 0 then
    if 0 <? y then half_pi
    else if y <? 0 then - half_pi
    else atan2_libm y x
  else atan2_libm y x.

(** [azimuth(coords)], lines 35-39, on floats. *)
Definition azimuth (coords : list float) : result float :=
  c1 <- index coords 1 ;;
  c0 <- index coords 0 ;;
  c3 <- index coords 3 ;;
  c2 <- index coords 2 ;;
  let radians := math_atan2 (c1 - c0) (c3 - c2) in
  let degrees := (radians * 180) / pi in
  Ok (if degrees <? 0 then degrees + 180 else degrees).

End Libm.

End Double.

(** Sample binary64 values, written out to the last bit. *)
Module Sample.

Import PrimFloat.
Local Open Scope float_scope.



End Sample.

(** ** What the scripts tell the user *)

Module Messages.

(** The geoprocessing messages of a run, in the order they are added.  The
    catch-all handler adds two errors: [e.args[0]] of the exception caught,
    then the messages of the engine. *)
Inductive gp : Type :=
| AddMessage (text : string)
| AddError (text : string)
| AddError_args (e : exn)
| AddError_engine.

(** [str] of a count, for ["{}".format(feature_count)] *)
Definition str (n : nat) : string := NilZero.string_of_uint (Nat.to_uint n).

(** The [finally] block of both scripts. *)
Definition finally : list gp :=
  [AddMessage "Spatial analysis extension checked in.";
   AddMessage "in_memory intermediate files deleted."].

(** The [except] clauses of AnalyseGeoDepressions.py. *)
Definition analyse_except (e : exn) : list gp :=
  match e with
  | LicenseError => [AddError "Spatial Analyst Extension Unavailable."]
  | NotNegative => [AddError "Bathy raster must be negative values only."]
  | _ => [AddError_args e; AddError_engine]
  end.

(** The messages of AnalyseGeoDepressions.py; [symbology] tells whether the
    optional symbology block ran to its end. *)
Definition analyse (i : Analyse.Inputs) (symbology : bool) : list gp :=
  (AddMessage "Bathy statistics calculated."
   :: if Rgt_dec (Analyse.maximum_value i) 0 then analyse_except NotNegative
      else if negb (Analyse.spatial_available i) then analyse_except LicenseError
      else
        AddMessage "Spatial Analyst extension successfully checked out."
        :: AddMessage "Deepest point located."
        :: AddMessage "Polygons smoothed."
        :: match Analyse.cursor_loop (Analyse.smoothed_polygons i) 1 with
           | Raise e => analyse_except e
           | Ok _ =>
               [AddMessage "Area, perimeter, major axis, minor axis, eccentricity, azimuth, diamater/depth ratioand thinness ratio calculated.";
                AddMessage "Deepest point and depression polygon spatial Join Completed.";
                AddMessage "Centroid point created."]
               ++ (if symbology then [] else [AddMessage "Symbology not added."])
               ++ [AddMessage "GeoDepression analysis complete."]
           end)
  ++ finally.

(** The [except] clauses of IdentifyGeoDepressions.py. *)
Definition identify_except (e : exn) : list gp :=
  match e with
  | LicenseError => [AddError "Spatial Analyst Extension Unavailable."]
  | NotNegative => [AddError "Bathy raster must be negative values only."]
  | NoFeatures => [AddError "There were no depressions within the size range found."]
  | _ => [AddError_args e; AddError_engine]
  end.

(** The messages of IdentifyGeoDepressions.py. *)
Definition identify (i : Identify.Inputs) : list gp :=
  (AddMessage "Bathy statistics calculated."
   :: if Rgt_dec (Identify.maximum i) 0 then identify_except NotNegative
      else if negb (Identify.spatial_available i) then identify_except LicenseError
      else
        let depression_polygons := Identify.MakeFeatureLayer_management i in
        let feature_count := Identify.GetCount_management depression_polygons in
        AddMessage "Spatial Analyst extension successfully checked out."
        :: AddMessage "Fill raster created."
        :: AddMessage "Depressions identified."
        :: AddMessage "Raster reclassified."
        :: AddMessage (str (List.length (Identify.raster_polygons i))
                       ++ " depression polygons created.")
        :: AddMessage ("Polygons out of size range removed. "
                       ++ str (Identify.getOutput feature_count)
                       ++ " polygons remaining.")
        :: if Identify.Result_lt_int feature_count 1 then identify_except NoFeatures
           else [AddMessage "GeoDepression depth calculated.";
                 AddMessage "GeoDepression identification complete."])
  ++ finally.

End Messages.

(** ** The specification's wording, kept apart for comparison *)

Module Spec.

(** Follows the spec's words, not the source: [azimuth(x1, x2, y1, y2)]
    "computes atan2(y2 - y1, x2 - x1) converted to degrees; if negative, add
    180". *)
Definition azimuth (x1 x2 y1 y2 : R) : R :=
  let degrees := (math_atan2 (y2 - y1) (x2 - x1) * 180) / PI in
  if Rlt_dec degrees 0 then degrees + 180 else degrees.

(** Follows the spec's words, not the source: the deepest point is the cell
    whose elevation satisfies
    "|zonal_max - cell_elevation| - |zonal_max - zonal_min| < 1e-3". *)
Definition deepest (zonal_max zonal_min cell_elevation : R) : Prop :=
  Rabs (zonal_max - cell_elevation) - Rabs (zonal_max - zonal_min) < 0.001.

(** "depth == 0 for some polygon" *)
Definition zero_depth (f : Analyse.Feature) : Prop :=
  exists d : num, Analyse.depth_field f = Some d /\ float d = 0.

(** Follows the spec's words, not the source: a polygon whose depth is 0 is
    "excluded from the characterized output, while other polygons succeed",
    and the run as a whole does not crash. *)
Definition skip_and_report (i : Analyse.Inputs) : Prop :=
  exists out : Analyse.Outputs,
    Analyse.run i = Analyse.Saved out /\
    (forall f : Analyse.Feature,
        In f (Analyse.smoothed_polygons i) -> ~ zero_depth f ->
        exists row : Analyse.Row,
          In row (Analyse.Depression_Polygons out) /\
          Analyse.SHAPE row = Analyse.shape_object f) /\
    List.length (Analyse.Depression_Polygons out)
    = List.length (filter (fun f => match Analyse.depth_field f with
                                    | Some d => if Req_dec_T (float d) 0
                                                then false else true
                                    | None => true
                                    end) (Analyse.smoothed_polygons i)).





End Spec.

(** ** Auxiliary definitions for the statements *)

(** The fold of lines 37-38 of [AnalyseGeoDepressions.py], on a value
    already in degrees. *)
Definition fold_degrees (degrees : R) : R :=
  if Rlt_dec degrees 0 then degrees + 180 else degrees.

(** A polygon on which no step of the cursor loop raises: a hull rectangle
    of eight numbers that is not reduced to a point, a perimeter and a depth
    that are not zero. *)
Definition characterisable (f : Analyse.Feature) : Prop :=
  (exists x1 y1 x2 y2 x3 y3 x4 y4 : R,
      Analyse.Shape.hullRectangle (Analyse.shape_object f)
      = [x1; y1; x2; y2; x3; y3; x4; y4] /\
      (math_hypot (x1 - x2) (y1 - y2) <> 0 \/ math_hypot (x2 - x3) (y2 - y3) <> 0)) /\
  Analyse.Shape.length (Analyse.shape_object f) <> 0 /\
  (exists d : num, Analyse.depth_field f = Some d /\ float d <> 0).

(** Sample data: a 2 x 1 rectangle over cell 0, with the depth given. *)
Definition rectangle (depth : num) : Analyse.Feature :=
  {| Analyse.shape_object :=
       {| Analyse.Shape.area := 2;
          Analyse.Shape.length := 6;
          Analyse.Shape.hullRectangle := [0; 0; 2; 0; 2; 1; 0; 1];
          Analyse.Shape.covers := fun l => Nat.eqb l 0 |};
     Analyse.depth_field := Some depth |}.

Definition sound_polygon : Analyse.Feature := rectangle (PyFloat (-4)).
Definition flat_polygon : Analyse.Feature := rectangle (PyFloat 0).

(** Sample data: a zone of two cells, of elevation -10 and -5. *)
Definition two_cells : Analyse.Raster := [Some (-10); Some (-5)].
Definition two_cells_min : Analyse.Raster := [Some (-10); Some (-10)].
Definition two_cells_max : Analyse.Raster := [Some (-5); Some (-5)].
Definition lowest_cell : Analyse.DeepPoint :=
  {| Analyse.point := {| Analyse.location := 0%nat;
                         Analyse.GRID_CODE := Rabs (-5 - -10) |};
     Analyse.DEPTH := Some (-10) |}.

(** Sample data: cells of 2 m, areas of 15 and 101 against the bounds 16
    and 100. *)
Definition out_of_range : Identify.Inputs :=
  {| Identify.maximum := -1; Identify.spatial_available := true;
     Identify.z_limit := 5; Identify.max_area := 100;
     Identify.cell_size := 2;
     Identify.raster_polygons :=
       [ {| Identify.SHAPE_area := 15; Identify.zonal_points := [-2] |};
         {| Identify.SHAPE_area := 101; Identify.zonal_points := [-3] |} ] |}.



(** Sample data: a run over one raster cell and the given polygons. *)
Definition sample_run (polygons : list Analyse.Feature) : Analyse.Inputs :=
  {| Analyse.maximum_value := -3;
     Analyse.spatial_available := true;
     Analyse.bathy_dataset := [Some (-10)];
     Analyse.zonal_min := [Some (-10)];
     Analyse.zonal_max := [Some (-10)];
     Analyse.smoothed_polygons := polygons |}.

(** The area test of the identification script, in the words of its where
    clause. *)
Definition in_size_range (i : Identify.Inputs) (c : Identify.Candidate) : Prop :=
  (2 * Identify.cell_size i) ^ 2 <= Identify.SHAPE_area c <= IZR (Identify.max_area i).

(** Sample data: cells of 2 m, one polygon of 40 m2 between two that the
    bounds 16 and 100 exclude. *)
Definition one_in_range : Identify.Inputs :=
  {| Identify.maximum := -1; Identify.spatial_available := true;
     Identify.z_limit := 5; Identify.max_area := 100;
     Identify.cell_size := 2;
     Identify.raster_polygons :=
       [ {| Identify.SHAPE_area := 15; Identify.zonal_points := [-2] |};
         {| Identify.SHAPE_area := 40; Identify.zonal_points := [-2; -7; -4] |};
         {| Identify.SHAPE_area := 101; Identify.zonal_points := [-3] |} ] |}.

(** Sample data: the same raster with max_area raised to 200. *)
Definition one_in_range_wider : Identify.Inputs :=
  {| Identify.maximum := Identify.maximum one_in_range;
     Identify.spatial_available := Identify.spatial_available one_in_range;
     Identify.z_limit := Identify.z_limit one_in_range;
     Identify.max_area := 200;
     Identify.cell_size := Identify.cell_size one_in_range;
     Identify.raster_polygons := Identify.raster_polygons one_in_range |}.

(** Sample data: cells of 4 m, so a lower bound of 64 m2, against a
    max_area of 50. *)
Definition crossed_bounds : Identify.Inputs :=
  {| Identify.maximum := -1; Identify.spatial_available := true;
     Identify.z_limit := 5; Identify.max_area := 50; Identify.cell_size := 4;
     Identify.raster_polygons :=
       [ {| Identify.SHAPE_area := 48; Identify.zonal_points := [-2] |} ] |}.

(** Whether a geoprocessing message is an error. *)
Definition is_error (m : Messages.gp) : bool :=
  match m with
  | Messages.AddMessage _ => false
  | _ => true
  end.

(** * Properties *)

Import Analyse.

(** ** Python arithmetic *)

Lemma div_float_l (r : R) (b : num) :
  float b <> 0 -> div (PyFloat r) b = Ok (PyFloat (r / float b)).
Proof.
  intros Hb. unfold div.
  destruct b as [n | s]; simpl in *; destruct (Req_dec_T _ 0); try contradiction; reflexivity.
Qed.

Lemma div_float_r (a : num) (s : R) :
  s <> 0 -> div a (PyFloat s) = Ok (PyFloat (float a / s)).
Proof.
  intros Hs. unfold div.
  destruct a as [n | r]; simpl; destruct (Req_dec_T s 0); try contradiction; reflexivity.
Qed.

Lemma div_int (x y : Z) :
  y <> 0%Z -> div (PyInt x) (PyInt y) = Ok (PyInt (x / y)).
Proof.
  intros Hy. unfold div. destruct (Z.eq_dec y 0); [contradiction | reflexivity].
Qed.

Lemma div_by_zero (a b : num) :
  float b = 0 -> div a b = Raise ZeroDivisionError.
Proof.
  intros Hb. unfold div.
  destruct a as [x | r], b as [y | s]; simpl in *.
  - destruct (Z.eq_dec y 0) as [_ | Hy]; [reflexivity |].
    exfalso. apply Hy. apply eq_IZR. exact Hb.
  - destruct (Req_dec_T s 0); [reflexivity | contradiction].
  - destruct (Req_dec_T (IZR y) 0); [reflexivity | contradiction].
  - destruct (Req_dec_T s 0); [reflexivity | contradiction].
Qed.

Lemma math_sqrt_nonneg (x : R) : 0 <= x -> math_sqrt x = Ok (sqrt x).
Proof.
  intros Hx. unfold math_sqrt. destruct (Rlt_dec x 0); [lra | reflexivity].
Qed.

Lemma math_hypot_nonneg (x y : R) : 0 <= math_hypot x y.
Proof. apply sqrt_pos. Qed.

Lemma math_hypot_zero (x y : R) : math_hypot x y = 0 -> x = 0 /\ y = 0.
Proof.
  unfold math_hypot. intros H.
  apply sqrt_eq_0 in H; [| nra].
  split; nra.
Qed.

(** ** The shape classifier *)

Lemma labels_differ :
  IRREGULAR <> SEMI_REGULAR /\ IRREGULAR <> REGULAR /\ SEMI_REGULAR <> REGULAR.
Proof. repeat split; discriminate. Qed.

(** C3. [shape_descriptor] depends on its two arguments only and has fixed
    thresholds: IRREGULAR as soon as thinness < 0.5 or dd_ratio > 100, tested
    first (so thinness 0.9 with ratio 150 is IRREGULAR, and thinness 0.4 is
    IRREGULAR with any ratio); otherwise SEMI_REGULAR when thinness < 0.75
    (thinness 0.6, ratio 50); otherwise REGULAR (thinness 0.9, ratio 10).
    The three labels are different texts. *)
Theorem shape_descriptor_thresholds :
  (forall t d : num,
      float t < 0.5 \/ float d > 100 -> shape_descriptor t d = IRREGULAR) /\
  (forall t d : num,
      ~ (float t < 0.5 \/ float d > 100) -> float t < 0.75 ->
      shape_descriptor t d = SEMI_REGULAR) /\
  (forall t d : num,
      ~ (float t < 0.5 \/ float d > 100) -> ~ float t < 0.75 ->
      shape_descriptor t d = REGULAR) /\
  (forall d : num, shape_descriptor (PyFloat 0.4) d = IRREGULAR) /\
  shape_descriptor (PyFloat 0.9) (PyInt 150) = IRREGULAR /\
  shape_descriptor (PyFloat 0.6) (PyInt 50) = SEMI_REGULAR /\
  shape_descriptor (PyFloat 0.9) (PyInt 10) = REGULAR /\
  IRREGULAR <> SEMI_REGULAR /\ IRREGULAR <> REGULAR /\ SEMI_REGULAR <> REGULAR.
Proof.
  assert (Hirr : forall t d : num,
             float t < 0.5 \/ float d > 100 -> shape_descriptor t d = IRREGULAR).
  { intros t d H. unfold shape_descriptor.
    destruct (Rlt_dec (float t) 0.5); [reflexivity |].
    destruct (Rgt_dec (float d) 100); [reflexivity |].
    destruct H; contradiction. }
  assert (Hsemi : forall t d : num,
             ~ (float t < 0.5 \/ float d > 100) -> float t < 0.75 ->
             shape_descriptor t d = SEMI_REGULAR).
  { intros t d H Ht. unfold shape_descriptor.
    destruct (Rlt_dec (float t) 0.5); [exfalso; apply H; now left |].
    destruct (Rgt_dec (float d) 100); [exfalso; apply H; now right |].
    destruct (Rlt_dec (float t) 0.75); [reflexivity | contradiction]. }
  assert (Hreg : forall t d : num,
             ~ (float t < 0.5 \/ float d > 100) -> ~ float t < 0.75 ->
             shape_descriptor t d = REGULAR).
  { intros t d H Ht. unfold shape_descriptor.
    destruct (Rlt_dec (float t) 0.5); [exfalso; apply H; now left |].
    destruct (Rgt_dec (float d) 100); [exfalso; apply H; now right |].
    destruct (Rlt_dec (float t) 0.75); [contradiction | reflexivity]. }
  split; [exact Hirr |]. split; [exact Hsemi |]. split; [exact Hreg |].
  split; [intros d; apply Hirr; left; simpl; lra |].
  split; [apply Hirr; right; simpl; lra |].
  split; [apply Hsemi; simpl; lra |].
  split; [apply Hreg; simpl; lra |].
  exact labels_differ.
Qed.

Lemma shape_descriptor_thresholds_witness :
  (float (PyFloat 0.95) < 0.5 \/ float (PyInt 101) > 100) /\
  shape_descriptor (PyFloat 0.95) (PyInt 101) = IRREGULAR.
Proof.
  assert (H : float (PyFloat 0.95) < 0.5 \/ float (PyInt 101) > 100)
    by (right; simpl; lra).
  split; [exact H | exact (proj1 shape_descriptor_thresholds _ _ H)].
Defined.

(** ** Eccentricity *)

Lemma eccentricity_value (major minor : num) :
  float major <> 0 -> Rabs (float minor) <= Rabs (float major) ->
  eccentricity major minor =
  Ok (sqrt ((float major ^ 2 - float minor ^ 2) / float major ^ 2)).
Proof.
  intros HM Hle. unfold eccentricity.
  assert (HM2 : float major ^ 2 <> 0) by (apply pow_nonzero; exact HM).
  rewrite div_float_r by exact HM2. simpl bind.
  apply math_sqrt_nonneg.
  assert (Hsq : float minor * float minor <= float major * float major).
  { apply Rsqr_le_abs_1 in Hle. exact Hle. }
  apply Rmult_le_pos.
  - simpl. lra.
  - left. apply Rinv_0_lt_compat. simpl. nra.
Qed.

Lemma eccentricity_zero_major (major minor : num) :
  float major = 0 -> eccentricity major minor = Raise ZeroDivisionError.
Proof.
  intros H0. unfold eccentricity.
  rewrite div_by_zero; [reflexivity |].
  simpl. rewrite H0. ring.
Qed.







(** ** Thinness ratio and Python 2 division *)






(** C9. Without a float among its arguments the division of
    [thinness_ratio] and of [diameter_depth_ratio] is the floor division of
    Python 2: on integers 0 <= area < perimeter^2, perimeter > 0, the
    thinness ratio is exactly 0.0.  The real-valued formulas are what is
    computed once an argument is a float, and not before: on the integers
    1 and 2 the two readings differ. *)
Theorem python2_floor_division :
  (forall area perimeter : Z,
      perimeter <> 0%Z ->
      thinness_ratio (PyInt area) (PyInt perimeter)
      = Ok ((4 * PI) * IZR (area / perimeter ^ 2))) /\
  (forall diameter depth : Z,
      depth <> 0%Z ->
      diameter_depth_ratio (PyInt diameter) (PyInt depth)
      = Ok (PyInt (Z.abs (diameter / depth)))) /\
  (forall area perimeter : Z,
      (0 <= area)%Z -> (0 < perimeter)%Z -> (area < perimeter ^ 2)%Z ->
      thinness_ratio (PyInt area) (PyInt perimeter) = Ok 0) /\
  (forall area perimeter : num,
      is_float area \/ is_float perimeter -> float perimeter <> 0 ->
      thinness_ratio area perimeter
      = Ok ((4 * PI) * (float area / float perimeter ^ 2))) /\
  (forall diameter depth : num,
      is_float diameter \/ is_float depth -> float depth <> 0 ->
      diameter_depth_ratio diameter depth
      = Ok (PyFloat (Rabs (float diameter / float depth)))) /\
  thinness_ratio (PyInt 1) (PyInt 2) = Ok 0 /\
  thinness_ratio (PyFloat 1) (PyInt 2) = Ok PI /\
  diameter_depth_ratio (PyInt 7) (PyInt 2) = Ok (PyInt 3) /\
  diameter_depth_ratio (PyFloat 7) (PyInt 2) = Ok (PyFloat 3.5).
Proof.
  assert (Hint : forall area perimeter : Z,
             perimeter <> 0%Z ->
             thinness_ratio (PyInt area) (PyInt perimeter)
             = Ok ((4 * PI) * IZR (area / perimeter ^ 2))).
  { intros area perimeter Hp. unfold thinness_ratio. cbn [pow2].
    rewrite div_int; [reflexivity |].
    apply Z.pow_nonzero; [exact Hp | lia]. }
  assert (Hzero : forall area perimeter : Z,
             (0 <= area)%Z -> (0 < perimeter)%Z -> (area < perimeter ^ 2)%Z ->
             thinness_ratio (PyInt area) (PyInt perimeter) = Ok 0).
  { intros area perimeter Ha Hp Hlt.
    rewrite Hint by lia. rewrite Z.div_small by lia. f_equal. simpl. ring. }
  assert (Hflt : forall area perimeter : num,
             is_float area \/ is_float perimeter -> float perimeter <> 0 ->
             thinness_ratio area perimeter
             = Ok ((4 * PI) * (float area / float perimeter ^ 2))).
  { intros area perimeter Hf Hp. unfold thinness_ratio.
    assert (Hp2 : float perimeter ^ 2 <> 0) by (apply pow_nonzero; exact Hp).
    destruct perimeter as [p | p]; cbn [pow2].
    - destruct Hf as [Hf | []]. destruct area as [a | a]; [destruct Hf |].
      simpl float in *.
      assert (Hpz : float (PyInt (p ^ 2)) = IZR p ^ 2).
      { cbn [float]. change 2%Z with (Z.of_nat 2). rewrite <- pow_IZR. reflexivity. }
      rewrite div_float_l by (rewrite Hpz; exact Hp2).
      rewrite Hpz. reflexivity.
    - rewrite div_float_r by exact Hp2. reflexivity. }
  assert (Hdd : forall diameter depth : num,
             is_float diameter \/ is_float depth -> float depth <> 0 ->
             diameter_depth_ratio diameter depth
             = Ok (PyFloat (Rabs (float diameter / float depth)))).
  { intros diameter depth Hf Hd. unfold diameter_depth_ratio.
    destruct depth as [d | d].
    - destruct Hf as [Hf | []]. destruct diameter as [a | a]; [destruct Hf |].
      rewrite div_float_l by exact Hd. reflexivity.
    - rewrite div_float_r by exact Hd. reflexivity. }
  split; [exact Hint |].
  split.
  { intros diameter depth Hd. unfold diameter_depth_ratio.
    rewrite div_int by exact Hd. reflexivity. }
  split; [exact Hzero |].
  split; [exact Hflt |].
  split; [exact Hdd |].
  split; [apply Hzero; lia |].
  split.
  { rewrite Hflt; [| left; exact I | simpl; lra]. f_equal. simpl. field. }
  split.
  { unfold diameter_depth_ratio. rewrite div_int by lia. reflexivity. }
  rewrite Hdd; [| left; exact I | simpl; lra].
  do 2 f_equal. simpl. rewrite Rabs_pos_eq; lra.
Qed.

Lemma python2_floor_division_witness :
  (0 <= 24)%Z /\ (0 < 5)%Z /\ (24 < 5 ^ 2)%Z /\
  thinness_ratio (PyInt 24) (PyInt 5) = Ok 0.
Proof.
  assert (H1 : (0 <= 24)%Z) by lia.
  assert (H2 : (0 < 5)%Z) by lia.
  assert (H3 : (24 < 5 ^ 2)%Z) by lia.
  repeat (split; [assumption |]).
  exact (proj1 (proj2 (proj2 python2_floor_division)) 24%Z 5%Z H1 H2 H3).
Defined.

(** ** Azimuth *)

Lemma atan_nonpos (x : R) : x <= 0 -> atan x <= 0.
Proof.
  intros [Hx | Hx].
  - left. rewrite <- atan_0. apply atan_increasing. exact Hx.
  - subst x. rewrite atan_0. lra.
Qed.

Lemma atan_pos (x : R) : 0 < x -> 0 < atan x.
Proof. intros Hx. rewrite <- atan_0. apply atan_increasing. exact Hx. Qed.

Lemma math_atan2_range (y x : R) : - PI < math_atan2 y x <= PI.
Proof.
  assert (Hpi := PI_RGT_0).
  unfold math_atan2.
  destruct (Rlt_dec 0 x) as [Hx | Hx].
  { destruct (atan_bound (y / x)). lra. }
  destruct (Rlt_dec x 0) as [Hx' | Hx'].
  { assert (Hinv : / x < 0) by (apply Rinv_lt_0_compat; exact Hx').
    destruct (atan_bound (y / x)) as [Hlo Hhi].
    destruct (Rle_dec 0 y) as [Hy | Hy].
    - assert (Hq : y / x <= 0) by (unfold Rdiv; nra).
      apply atan_nonpos in Hq. lra.
    - assert (Hq : 0 < y / x) by (unfold Rdiv; nra).
      apply atan_pos in Hq. lra. }
  destruct (Rlt_dec 0 y); [lra |].
  destruct (Rlt_dec y 0); lra.
Qed.

Lemma math_atan2_north (x : R) : 0 < x -> math_atan2 0 x = 0.
Proof.
  intros Hx. unfold math_atan2. destruct (Rlt_dec 0 x); [| contradiction].
  unfold Rdiv. rewrite Rmult_0_l. apply atan_0.
Qed.

Lemma math_atan2_south (x : R) : x < 0 -> math_atan2 0 x = PI.
Proof.
  intros Hx. unfold math_atan2.
  destruct (Rlt_dec 0 x); [lra |].
  destruct (Rlt_dec x 0); [| contradiction].
  destruct (Rle_dec 0 0); [| lra].
  unfold Rdiv. rewrite Rmult_0_l, atan_0. ring.
Qed.

Lemma math_atan2_east (y : R) : 0 < y -> math_atan2 y 0 = PI / 2.
Proof.
  intros Hy. unfold math_atan2.
  destruct (Rlt_dec 0 0); [lra |].
  destruct (Rlt_dec 0 y); [reflexivity | contradiction].
Qed.

Lemma math_atan2_west (y : R) : y < 0 -> math_atan2 y 0 = - (PI / 2).
Proof.
  intros Hy. unfold math_atan2.
  destruct (Rlt_dec 0 0); [lra |].
  destruct (Rlt_dec 0 y); [lra |].
  destruct (Rlt_dec y 0); [reflexivity | contradiction].
Qed.

Lemma azimuth_unfold (x1 x2 y1 y2 : R) :
  azimuth [x1; x2; y1; y2]
  = Ok (fold_degrees ((math_atan2 (x2 - x1) (y2 - y1) * 180) / PI)).
Proof. reflexivity. Qed.

Lemma degrees_of_PI (k : R) : (k * PI * 180) / PI = k * 180.
Proof. field. apply Rgt_not_eq, PI_RGT_0. Qed.

Lemma fold_degrees_range (radians : R) :
  - PI < radians <= PI -> 0 <= fold_degrees ((radians * 180) / PI) <= 180.
Proof.
  intros [Hlo Hhi]. assert (Hpi := PI_RGT_0).
  set (d := (radians * 180) / PI).
  assert (Hd : d * PI = radians * 180) by (unfold d; field; lra).
  assert (Hd1 : - 180 < d) by nra.
  assert (Hd2 : d <= 180) by nra.
  unfold fold_degrees. destruct (Rlt_dec d 0); lra.
Qed.

Lemma azimuth_range (x1 x2 y1 y2 : R) :
  exists degrees : R,
    azimuth [x1; x2; y1; y2] = Ok degrees /\ 0 <= degrees <= 180.
Proof.
  eexists. split; [apply azimuth_unfold |].
  apply fold_degrees_range, math_atan2_range.
Qed.

Lemma azimuth_north (x1 x2 y1 y2 : R) :
  x1 = x2 -> y1 < y2 -> azimuth [x1; x2; y1; y2] = Ok 0.
Proof.
  intros Hx Hy. rewrite azimuth_unfold. f_equal.
  replace (x2 - x1) with 0 by lra.
  rewrite math_atan2_north by lra.
  replace (0 * 180 / PI) with 0 by (unfold Rdiv; ring).
  unfold fold_degrees. destruct (Rlt_dec 0 0); lra.
Qed.

Lemma azimuth_south (x1 x2 y1 y2 : R) :
  x2 = x1 -> y2 < y1 -> azimuth [x1; x2; y1; y2] = Ok 180.
Proof.
  intros Hx Hy. rewrite azimuth_unfold. f_equal.
  replace (x2 - x1) with 0 by lra.
  rewrite math_atan2_south by lra.
  replace (PI * 180 / PI) with 180
    by (rewrite <- (Rmult_1_l PI) at 1; rewrite degrees_of_PI; ring).
  unfold fold_degrees. destruct (Rlt_dec 180 0); lra.
Qed.

Lemma azimuth_horizontal (x1 x2 y1 y2 : R) :
  y1 = y2 -> x1 <> x2 -> azimuth [x1; x2; y1; y2] = Ok 90.
Proof.
  intros Hy Hx. rewrite azimuth_unfold. f_equal.
  replace (y2 - y1) with 0 by lra.
  destruct (Rtotal_order x1 x2) as [Hlt | [Heq | Hgt]]; [| contradiction |].
  - rewrite math_atan2_east by lra.
    replace (PI / 2 * 180 / PI) with 90
      by (replace (PI / 2) with (/ 2 * PI) by field; rewrite degrees_of_PI; field).
    unfold fold_degrees. destruct (Rlt_dec 90 0); lra.
  - rewrite math_atan2_west by lra.
    replace (- (PI / 2) * 180 / PI) with (- 90)
      by (replace (- (PI / 2)) with (- / 2 * PI) by field; rewrite degrees_of_PI; field).
    unfold fold_degrees. destruct (Rlt_dec (- 90) 0); lra.
Qed.

(** C2, as the code has it.  [azimuth] takes the arctangent of
    (x2 - x1, y2 - y1), a bearing counted from north, turns it into degrees
    and adds 180 when it is negative; the value lies in the closed range
    [0, 180]; a horizontal line gives 90 and a vertical line run northwards
    gives 0. *)
Theorem azimuth_bearing_from_north (x1 x2 y1 y2 : R) :
  exists degrees : R,
    azimuth [x1; x2; y1; y2] = Ok degrees /\
    degrees = fold_degrees ((math_atan2 (x2 - x1) (y2 - y1) * 180) / PI) /\
    0 <= degrees <= 180 /\
    (y1 = y2 -> x1 <> x2 -> degrees = 90) /\
    (x1 = x2 -> y1 < y2 -> degrees = 0).
Proof.
  exists (fold_degrees ((math_atan2 (x2 - x1) (y2 - y1) * 180) / PI)).
  split; [apply azimuth_unfold |].
  split; [reflexivity |].
  split; [apply fold_degrees_range, math_atan2_range |].
  split.
  - intros Hy Hx. assert (H := azimuth_horizontal x1 x2 y1 y2 Hy Hx).
    rewrite azimuth_unfold in H. injection H as H. exact H.
  - intros Hx Hy. assert (H := azimuth_north x1 x2 y1 y2 Hx Hy).
    rewrite azimuth_unfold in H. injection H as H. exact H.
Qed.

Lemma azimuth_bearing_from_north_witness :
  exists degrees : R,
    azimuth [2; 7; 3; 3] = Ok degrees /\ 3 = 3 /\ 2 <> 7 /\ degrees = 90.
Proof.
  destruct (azimuth_bearing_from_north 2 7 3 3) as (d & Hd & _ & _ & Hh & _).
  exists d. split; [exact Hd |].
  assert (H1 : 3 = 3) by reflexivity.
  assert (H2 : 2 <> 7) by lra.
  split; [exact H1 |]. split; [exact H2 |].
  exact (Hh H1 H2).
Defined.

(** C2, as the specification words it, does not hold.  On the vertical
    segment from (0,0) to (0,1) the code returns 0 where the worded formula
    and the worded example say 90; on the horizontal segment from (0,0) to (1,0) it returns 90 where
    they say 0; and on the segment from (0,1) down to (0,0) it returns 180,
    outside [0, 180). *)
Lemma azimuth_is_not_atan2_dy_dx :
  (azimuth [0; 0; 0; 1] = Ok 0 /\ Spec.azimuth 0 0 0 1 = 90 /\
   azimuth [0; 0; 0; 1] <> Ok (Spec.azimuth 0 0 0 1)) /\
  (azimuth [0; 1; 0; 0] = Ok 90 /\ Spec.azimuth 0 1 0 0 = 0 /\
   azimuth [0; 1; 0; 0] <> Ok (Spec.azimuth 0 1 0 0)) /\
  (azimuth [0; 0; 1; 0] = Ok 180 /\ ~ 180 < 180).
Proof.
  assert (Hs1 : Spec.azimuth 0 0 0 1 = 90).
  { unfold Spec.azimuth. replace (0 - 0) with 0 by ring.
    rewrite math_atan2_east by lra.
    replace (PI / 2 * 180 / PI) with 90
      by (replace (PI / 2) with (/ 2 * PI) by field; rewrite degrees_of_PI; field).
    destruct (Rlt_dec 90 0); lra. }
  assert (Hs2 : Spec.azimuth 0 1 0 0 = 0).
  { unfold Spec.azimuth. replace (0 - 0) with 0 by ring.
    rewrite math_atan2_north by lra.
    replace (0 * 180 / PI) with 0 by (unfold Rdiv; ring).
    destruct (Rlt_dec 0 0); lra. }
  assert (Hc1 : azimuth [0; 0; 0; 1] = Ok 0) by (apply azimuth_north; lra).
  assert (Hc2 : azimuth [0; 1; 0; 0] = Ok 90) by (apply azimuth_horizontal; lra).
  split; [| split].
  - split; [exact Hc1 |]. split; [exact Hs1 |].
    rewrite Hc1, Hs1. intros H. injection H as H. lra.
  - split; [exact Hc2 |]. split; [exact Hs2 |].
    rewrite Hc2, Hs2. intros H. injection H as H. lra.
  - split; [apply azimuth_south; lra | lra].
Qed.






(** ** The depth locator *)

Lemma sample_nil {A : Type} (l : Location) : sample (@nil (option A)) l = None.
Proof. unfold sample. destruct l; reflexivity. Qed.

Lemma sample_cellwise {A B C : Type} (f : A -> B -> C)
    (a : list (option A)) (b : list (option B)) (l : Location) :
  sample (cellwise f a b) l =
  match sample a l, sample b l with
  | Some u, Some v => Some (f u v)
  | _, _ => None
  end.
Proof.
  revert b l. induction a as [| x a IH]; intros b l.
  - rewrite sample_nil. destruct l; reflexivity.
  - destruct b as [| y b].
    + rewrite (sample_nil (A := B)).
      unfold cellwise. simpl. rewrite sample_nil.
      destruct (sample (x :: a) l); reflexivity.
    + destruct l as [| l].
      * unfold sample, cellwise. simpl. destruct x, y; reflexivity.
      * exact (IH b l).
Qed.

Lemma sample_map {A B : Type} (f : A -> B) (a : list (option A)) (l : Location) :
  sample (map (option_map f) a) l = option_map f (sample a l).
Proof.
  unfold sample. rewrite nth_error_map.
  destruct (nth_error a l); reflexivity.
Qed.

Lemma sample_Con (cond : list (option bool)) (t : Raster) (l : Location) :
  sample (Con cond t) l =
  match sample cond l with
  | Some true => sample t l
  | _ => None
  end.
Proof.
  revert t l. induction cond as [| c cond IH]; intros t l.
  - rewrite sample_nil. destruct l; reflexivity.
  - destruct t as [| v t].
    + unfold Con. simpl. rewrite !sample_nil.
      destruct (sample (c :: cond) l) as [[|] |]; reflexivity.
    + destruct l as [| l].
      * unfold sample, Con. simpl. destruct c as [[|] |]; reflexivity.
      * exact (IH t l).
Qed.

(** The cell of [depression_depth], read off the three input cells. *)
Lemma sample_depression_depth (zonal_min zonal_max bathy : Raster) (l : Location) :
  sample (depression_depth zonal_min zonal_max bathy) l =
  match sample zonal_max l, sample bathy l, sample zonal_min l with
  | Some zmax, Some b, Some zmin =>
      if Rlt_dec (Rabs (Rabs (zmax - b) - Rabs (zmax - zmin))) 0.001
      then Some (Rabs (zmax - zmin)) else None
  | _, _, _ => None
  end.
Proof.
  unfold depression_depth, LessThan, Abs, Minus.
  rewrite sample_Con.
  rewrite !sample_map, !sample_cellwise, !sample_map, !sample_cellwise.
  destruct (sample zonal_max l) as [zmax |]; [| reflexivity].
  destruct (sample bathy l) as [b |], (sample zonal_min l) as [zmin |];
    simpl; try reflexivity.
  destruct (Rlt_dec _ 0.001); reflexivity.
Qed.

Lemma In_RasterToPoint_from (r : Raster) (k : nat) (p : Point) :
  In p (RasterToPoint_from k r) <->
  exists l : nat, location p = (k + l)%nat /\ sample r l = Some (GRID_CODE p).
Proof.
  revert k. induction r as [| c r IH]; intros k.
  - simpl. split; [intros [] |].
    intros (l & _ & H). rewrite sample_nil in H. discriminate.
  - assert (Htail : In p (RasterToPoint_from (S k) r) <->
                    exists l : nat, location p = (k + S l)%nat /\
                                    sample (c :: r) (S l) = Some (GRID_CODE p)).
    { rewrite IH. split; intros (l & Hl & Hs); exists l; split;
        try exact Hs; lia. }
    destruct c as [v |]; simpl.
    + split.
      * intros [Hp | Hin].
        -- exists 0%nat. subst p. simpl. split; [lia | reflexivity].
        -- apply Htail in Hin. destruct Hin as (l & Hl & Hs).
           exists (S l). split; assumption.
      * intros (l & Hl & Hs). destruct l as [| l].
        -- left. unfold sample in Hs. simpl in Hs. injection Hs as Hs.
           destruct p as [pl pg]. simpl in *. f_equal; [lia | exact Hs].
        -- right. apply Htail. exists l. split; assumption.
    + rewrite Htail. split.
      * intros (l & Hl & Hs). exists (S l). split; assumption.
      * intros (l & Hl & Hs). destruct l as [| l].
        -- unfold sample in Hs. simpl in Hs. discriminate.
        -- exists l. split; assumption.
Qed.

Lemma In_deepest_point (zonal_min zonal_max bathy : Raster) (p : DeepPoint) :
  In p (deepest_point zonal_min zonal_max bathy) <->
  sample (depression_depth zonal_min zonal_max bathy) (location (point p))
  = Some (GRID_CODE (point p)) /\
  DEPTH p = sample bathy (location (point p)).
Proof.
  unfold deepest_point, ExtractMultiValuesToPoints, RasterToPoint_conversion.
  rewrite in_map_iff. split.
  - intros (q & Hq & Hin). subst p. simpl.
    apply In_RasterToPoint_from in Hin. destruct Hin as (l & Hl & Hs).
    simpl in Hl. subst l. split; [exact Hs | reflexivity].
  - intros [Hs Hd]. exists (point p). split.
    + destruct p as [q d]. simpl in *. subst d. reflexivity.
    + apply In_RasterToPoint_from. exists (location (point p)). split; [reflexivity | exact Hs].
Qed.

(** C4, as the code has it.  A cell becomes a deepest point exactly when
    | |zonal_max - elevation| - |zonal_max - zonal_min| | < 0.001, the
    difference being taken in absolute value; the point carries, in DEPTH,
    the elevation of the bathymetry raster at its cell (its GRID_CODE is the
    zonal range |zonal_max - zonal_min|). *)
Theorem deepest_point_selection (zonal_min zonal_max bathy : Raster) :
  (forall cell : Location,
      (exists p : DeepPoint,
          In p (deepest_point zonal_min zonal_max bathy) /\
          location (point p) = cell) <->
      (exists zmax zmin elevation : R,
          sample zonal_max cell = Some zmax /\
          sample zonal_min cell = Some zmin /\
          sample bathy cell = Some elevation /\
          Rabs (Rabs (zmax - elevation) - Rabs (zmax - zmin)) < 0.001)) /\
  (forall p : DeepPoint,
      In p (deepest_point zonal_min zonal_max bathy) ->
      exists zmax zmin elevation : R,
        sample zonal_max (location (point p)) = Some zmax /\
        sample zonal_min (location (point p)) = Some zmin /\
        sample bathy (location (point p)) = Some elevation /\
        DEPTH p = Some elevation /\
        GRID_CODE (point p) = Rabs (zmax - zmin)).
Proof.
  assert (Hpt : forall p : DeepPoint,
             In p (deepest_point zonal_min zonal_max bathy) ->
             exists zmax zmin elevation : R,
               sample zonal_max (location (point p)) = Some zmax /\
               sample zonal_min (location (point p)) = Some zmin /\
               sample bathy (location (point p)) = Some elevation /\
               Rabs (Rabs (zmax - elevation) - Rabs (zmax - zmin)) < 0.001 /\
               DEPTH p = Some elevation /\
               GRID_CODE (point p) = Rabs (zmax - zmin)).
  { intros p Hin. apply In_deepest_point in Hin. destruct Hin as [Hs Hd].
    rewrite sample_depression_depth in Hs.
    destruct (sample zonal_max (location (point p))) as [zmax |]; [| discriminate].
    destruct (sample bathy (location (point p))) as [b |]; [| discriminate].
    destruct (sample zonal_min (location (point p))) as [zmin |]; [| discriminate].
    destruct (Rlt_dec _ 0.001) as [Hlt |]; [| discriminate].
    injection Hs as Hs. exists zmax, zmin, b. repeat split; auto. }
  split.
  - intros cell. split.
    + intros (p & Hin & Hl). subst cell.
      destruct (Hpt p Hin) as (zmax & zmin & b & H1 & H2 & H3 & H4 & _).
      exists zmax, zmin, b. repeat split; assumption.
    + intros (zmax & zmin & b & H1 & H2 & H3 & H4).
      exists {| point := {| location := cell; GRID_CODE := Rabs (zmax - zmin) |};
                DEPTH := Some b |}.
      split; [| reflexivity].
      apply In_deepest_point. simpl. split; [| symmetry; exact H3].
      rewrite sample_depression_depth, H1, H2, H3.
      destruct (Rlt_dec _ 0.001); [reflexivity | contradiction].
  - intros p Hin.
    destruct (Hpt p Hin) as (zmax & zmin & b & H1 & H2 & H3 & _ & H5 & H6).
    exists zmax, zmin, b. repeat split; assumption.
Qed.

Lemma deepest_point_selection_witness :
  In lowest_cell (deepest_point two_cells_min two_cells_max two_cells) /\
  exists zmax zmin elevation : R,
    sample two_cells_max (location (point lowest_cell)) = Some zmax /\
    sample two_cells_min (location (point lowest_cell)) = Some zmin /\
    sample two_cells (location (point lowest_cell)) = Some elevation /\
    DEPTH lowest_cell = Some elevation /\
    GRID_CODE (point lowest_cell) = Rabs (zmax - zmin).
Proof.
  assert (Hin : In lowest_cell (deepest_point two_cells_min two_cells_max two_cells)).
  { apply In_deepest_point. split; [| reflexivity].
    rewrite sample_depression_depth. unfold sample. simpl.
    destruct (Rlt_dec _ 0.001) as [_ | Hn]; [reflexivity |].
    exfalso. apply Hn.
    replace (-5 - -10) with 5 by ring.
    rewrite (Rabs_pos_eq 5) by lra.
    replace (5 - 5) with 0 by ring. rewrite Rabs_R0. lra. }
  split; [exact Hin |].
  exact (proj2 (deepest_point_selection two_cells_min two_cells_max two_cells)
           lowest_cell Hin).
Defined.

(** C4, as the specification words it, does not hold: without the outer
    absolute value the test passes for every cell of a zone.  In a zone of
    two cells of elevation -10 and -5 the cell at -5 passes the worded test
    (0 - 5 < 0.001), and the code makes no point of it. *)
Lemma deepest_point_is_not_spec_deepest :
  sample two_cells_max 1%nat = Some (-5) /\
  sample two_cells_min 1%nat = Some (-10) /\
  sample two_cells 1%nat = Some (-5) /\
  Spec.deepest (-5) (-10) (-5) /\
  ~ (exists p : DeepPoint,
        In p (deepest_point two_cells_min two_cells_max two_cells) /\
        location (point p) = 1%nat).
Proof.
  split; [reflexivity |]. split; [reflexivity |]. split; [reflexivity |].
  split.
  - unfold Spec.deepest.
    replace (-5 - -5) with 0 by ring. rewrite Rabs_R0.
    assert (H := Rabs_pos (-5 - -10)). lra.
  - intros (p & Hin & Hl).
    apply In_deepest_point in Hin. destruct Hin as [Hs _].
    rewrite sample_depression_depth, Hl in Hs.
    unfold sample in Hs. simpl in Hs.
    destruct (Rlt_dec _ 0.001) as [Hlt | _]; [| discriminate].
    replace (-5 - -5) with 0 in Hlt by ring.
    replace (-5 - -10) with 5 in Hlt by ring.
    rewrite Rabs_R0, (Rabs_pos_eq 5) in Hlt by lra.
    rewrite (Rabs_left (0 - 5)) in Hlt by lra. lra.
Qed.

(** ** The update cursor *)

Lemma eccentricity_of_axes (maj_axis min_axis : R) :
  0 <= min_axis <= maj_axis ->
  eccentricity (PyFloat maj_axis) (PyFloat min_axis)
  = if Req_dec_T maj_axis 0 then Raise ZeroDivisionError
    else Ok (sqrt ((maj_axis ^ 2 - min_axis ^ 2) / maj_axis ^ 2)).
Proof.
  intros [Hmin Hmaj]. destruct (Req_dec_T maj_axis 0) as [H0 | H0].
  - apply eccentricity_zero_major. exact H0.
  - rewrite eccentricity_value; [reflexivity | exact H0 |].
    simpl. rewrite !Rabs_pos_eq; lra.
Qed.

Ltac bind_ok :=
  match goal with
  | |- bind ?c _ = Ok _ -> _ =>
      let E := fresh "E" in destruct c eqn:E; cbn [bind]; [| discriminate]
  end.

(** What a successful update says of its row and of the polygon. *)
Lemma update_inv (f : Feature) (k : Z) (row : Row) :
  update f k = Ok row ->
  DEP_ID row = k /\ SHAPE row = shape_object f /\ (k <= 32767)%Z /\
  exists d : num, depth_field f = Some d /\ float d <> 0 /\ POCK_DEP row = d.
Proof.
  unfold update.
  destruct (Shape.hullRectangle (shape_object f))
    as [| x1 [| y1 [| x2 [| y2 [| x3 [| y3 [| x4 [| y4 [| z zs]]]]]]]]];
    try discriminate.
  destruct (Rle_dec _ _); cbv beta iota; repeat bind_ok;
    unfold updateRow; cbn [DEP_ID];
    (destruct (Z.leb_spec k 32767); [| discriminate]);
    intros Hrow; injection Hrow as Hrow; subst row; cbn;
    (split; [reflexivity |]); (split; [reflexivity |]); (split; [assumption |]);
    (destruct (depth_field f) as [d |]; [| discriminate]);
    match goal with
    | E : Ok d = Ok ?n |- _ => injection E as E; subst n
    end;
    exists d; (split; [reflexivity |]); (split; [| reflexivity]);
    intros Hz;
    match goal with
    | E : diameter_depth_ratio _ d = Ok _ |- _ =>
        unfold diameter_depth_ratio in E; rewrite div_by_zero in E by exact Hz;
        discriminate
    end.
Qed.

Lemma axes_order (d1 d2 : R) :
  0 <= d1 -> 0 <= d2 -> (d1 <> 0 \/ d2 <> 0) ->
  (d1 <= d2 -> d2 <> 0) /\ (~ d1 <= d2 -> d1 <> 0).
Proof. intros H1 H2 [H | H]; split; intros; lra. Qed.

(** A characterisable polygon is updated without an exception as long as its
    identifier fits the field. *)
Lemma update_succeeds (f : Feature) (k : Z) :
  characterisable f -> (k <= 32767)%Z -> exists row : Row, update f k = Ok row.
Proof.
  intros [(x1 & y1 & x2 & y2 & x3 & y3 & x4 & y4 & Hhull & Hne)
            [Hlen (d & Hd & Hd0)]] Hk.
  unfold update. rewrite Hhull, Hd.
  assert (H1 := math_hypot_nonneg (x1 - x2) (y1 - y2)).
  assert (H2 := math_hypot_nonneg (x2 - x3) (y2 - y3)).
  destruct (axes_order _ _ H1 H2 Hne) as [Hle Hgt].
  assert (Hp : Shape.length (shape_object f) ^ 2 <> 0)
    by (apply pow_nonzero; exact Hlen).
  destruct (Rle_dec _ _) as [Hc | Hc]; cbv beta iota;
    (rewrite eccentricity_of_axes by lra);
    (destruct (Req_dec_T _ 0) as [H0 | _];
     [exfalso; first [exact (Hle Hc H0) | exact (Hgt Hc H0)] |]);
    cbn [bind]; rewrite azimuth_unfold; cbn [bind];
    unfold thinness_ratio; cbn [pow2]; rewrite div_float_r by exact Hp;
    cbn [bind add float];
    (rewrite div_float_l by (simpl; lra)); cbn [bind];
    unfold diameter_depth_ratio; rewrite div_float_l by exact Hd0; cbn [bind];
    unfold updateRow; cbn [DEP_ID];
    (destruct (Z.leb_spec k 32767); [| lia]);
    eexists; reflexivity.
Qed.

(** A zero depth stops the update of a polygon with a ZeroDivisionError
    (unless its hull rectangle does not even unpack). *)
Lemma update_zero_depth (f : Feature) (k : Z) (d : num)
    (x1 y1 x2 y2 x3 y3 x4 y4 : R) :
  Shape.hullRectangle (shape_object f) = [x1; y1; x2; y2; x3; y3; x4; y4] ->
  depth_field f = Some d -> float d = 0 ->
  update f k = Raise ZeroDivisionError.
Proof.
  intros Hhull Hd Hz. unfold update. rewrite Hhull, Hd.
  assert (H1 := math_hypot_nonneg (x1 - x2) (y1 - y2)).
  assert (H2 := math_hypot_nonneg (x2 - x3) (y2 - y3)).
  destruct (Rle_dec _ _) as [Hc | Hc]; cbv beta iota;
    (rewrite eccentricity_of_axes by lra);
    (destruct (Req_dec_T _ 0); [reflexivity |]);
    cbn [bind]; rewrite azimuth_unfold; cbn [bind];
    unfold thinness_ratio; cbn [pow2];
    (destruct (div (PyFloat _) (PyFloat (_ ^ 2))) eqn:E; cbn [bind];
     [| unfold div in E; cbn [float] in E;
        destruct (Req_dec_T _ 0); [injection E as E; subst; reflexivity | discriminate]]);
    cbn [add float];
    (rewrite div_float_l by (simpl; lra)); cbn [bind];
    unfold diameter_depth_ratio; rewrite div_by_zero by exact Hz; reflexivity.
Qed.

Lemma cursor_loop_inv (rows : list Feature) (k : nat) (out : list Row) :
  cursor_loop rows (Z.of_nat k) = Ok out ->
  map DEP_ID out = map Z.of_nat (seq k (List.length rows)) /\
  map SHAPE out = map shape_object rows /\
  Forall (fun f => exists d : num, depth_field f = Some d /\ float d <> 0) rows.
Proof.
  revert k out. induction rows as [| f rows IH]; intros k out.
  - simpl. intros H. injection H as H. subst out. repeat split. constructor.
  - cbn [cursor_loop].
    destruct (update f (Z.of_nat k)) as [row |] eqn:Eu; cbn [bind]; [| discriminate].
    replace (Z.of_nat k + 1)%Z with (Z.of_nat (S k)) by lia.
    destruct (cursor_loop rows (Z.of_nat (S k))) as [others |] eqn:El;
      cbn [bind]; [| discriminate].
    intros H. injection H as H. subst out.
    apply update_inv in Eu. destruct Eu as (Hid & Hshape & _ & d & Hd & Hd0 & _).
    destruct (IH _ _ El) as (IHid & IHshape & IHdepth).
    simpl. rewrite Hid, Hshape, IHid, IHshape. repeat split.
    constructor; [exists d; split; assumption | exact IHdepth].
Qed.

Lemma cursor_loop_succeeds (rows : list Feature) (k : nat) :
  Forall characterisable rows ->
  (Z.of_nat k + Z.of_nat (List.length rows) <= 32768)%Z ->
  exists out : list Row, cursor_loop rows (Z.of_nat k) = Ok out.
Proof.
  revert k. induction rows as [| f rows IH]; intros k Hall Hk.
  - exists []. reflexivity.
  - inversion Hall as [| ? ? Hf Hrest]; subst.
    cbn [List.length] in Hk.
    destruct (update_succeeds f (Z.of_nat k) Hf) as [row Hrow]; [lia |].
    destruct (IH (S k) Hrest) as [others Hothers]; [lia |].
    exists (row :: others). cbn [cursor_loop]. rewrite Hrow. cbn [bind].
    replace (Z.of_nat k + 1)%Z with (Z.of_nat (S k)) by lia.
    rewrite Hothers. reflexivity.
Qed.

(** The loop stops at the first polygon whose update raises. *)
Lemma cursor_loop_stops (before after : list Feature) (f : Feature)
    (k : Z) (rows : list Row) (e : exn) :
  cursor_loop before k = Ok rows ->
  update f (k + Z.of_nat (List.length before)) = Raise e ->
  cursor_loop (before ++ f :: after) k = Raise e.
Proof.
  revert k rows. induction before as [| g before IH]; intros k rows.
  - intros _ Hf. cbn in Hf. rewrite Z.add_0_r in Hf.
    cbn [app cursor_loop]. rewrite Hf. reflexivity.
  - cbn [cursor_loop app].
    destruct (update g k) as [row |]; cbn [bind]; [| discriminate].
    destruct (cursor_loop before (k + 1)) as [others |] eqn:El; cbn [bind];
      [| discriminate].
    intros _ Hf.
    rewrite (IH (k + 1)%Z others El); [reflexivity |].
    rewrite <- Hf. f_equal. cbn [List.length]. lia.
Qed.

Lemma script_checked (i : Inputs) :
  maximum_value i <= 0 -> spatial_available i = true ->
  script i =
  (depression_polygons <- cursor_loop (smoothed_polygons i) 1 ;;
   Ok {| Depression_Polygons := depression_polygons;
         Depression_Deepest_Point :=
           DeleteIdentical_management
             (DeleteField_management
                (SpatialJoin_analysis
                   (deepest_point (zonal_min i) (zonal_max i) (bathy_dataset i))
                   depression_polygons));
         Depression_Centroid := FeatureToPoint_management depression_polygons |}).
Proof.
  intros Hmax Hsp. unfold script.
  destruct (Rgt_dec (maximum_value i) 0); [lra |].
  rewrite Hsp. reflexivity.
Qed.

Lemma script_inv (i : Inputs) (out : Outputs) :
  script i = Ok out ->
  cursor_loop (smoothed_polygons i) 1 = Ok (Depression_Polygons out) /\
  Depression_Deepest_Point out =
    DeleteIdentical_management
      (DeleteField_management
         (SpatialJoin_analysis
            (deepest_point (zonal_min i) (zonal_max i) (bathy_dataset i))
            (Depression_Polygons out))) /\
  Depression_Centroid out = FeatureToPoint_management (Depression_Polygons out).
Proof.
  unfold script.
  destruct (Rgt_dec (maximum_value i) 0); [discriminate |].
  destruct (negb (spatial_available i)); [discriminate |].
  destruct (cursor_loop (smoothed_polygons i) 1) as [polys |]; cbn [bind];
    [| discriminate].
  intros H. injection H as H. subst out. cbn. repeat split.
Qed.

Lemma script_raises_run_reports (i : Inputs) (e : exn) :
  script i = Raise e -> run i = Reported e.
Proof. intros H. unfold run. rewrite H. reflexivity. Qed.

Lemma run_saved_inv (i : Inputs) (out : Outputs) :
  run i = Saved out -> script i = Ok out.
Proof.
  unfold run. destruct (script i); intros H; [injection H as H; subst; reflexivity | discriminate].
Qed.

(** ** Zero depth *)

(** C1, as the code has it.  A polygon whose joined depth is 0 makes the
    whole run fail: some exception is raised, the handler reports it and no
    layer is saved, whatever the other polygons are.  When the polygons
    before it were updated without error (and its hull rectangle unpacks),
    the exception is the ZeroDivisionError of [diameter_depth_ratio]. *)
Theorem zero_depth_aborts_the_run (i : Inputs) (f : Feature) (d : num) :
  In f (smoothed_polygons i) -> depth_field f = Some d -> float d = 0 ->
  (exists e : exn, script i = Raise e /\ run i = Reported e) /\
  (forall (before after : list Feature) (rows : list Row)
          (x1 y1 x2 y2 x3 y3 x4 y4 : R),
      maximum_value i <= 0 -> spatial_available i = true ->
      smoothed_polygons i = before ++ f :: after ->
      cursor_loop before 1 = Ok rows ->
      Shape.hullRectangle (shape_object f) = [x1; y1; x2; y2; x3; y3; x4; y4] ->
      run i = Reported ZeroDivisionError).
Proof.
  intros Hin Hd Hz. split.
  - destruct (script i) as [out |] eqn:Es.
    + exfalso. apply script_inv in Es. destruct Es as (Hloop & _).
      apply (cursor_loop_inv _ 1%nat) in Hloop. destruct Hloop as (_ & _ & Hall).
      rewrite Forall_forall in Hall.
      destruct (Hall f Hin) as (d' & Hd' & Hnz).
      rewrite Hd in Hd'. injection Hd' as Hd'. subst d'. contradiction.
    + exists e. split; [reflexivity |]. apply script_raises_run_reports. exact Es.
  - intros before after rows x1 y1 x2 y2 x3 y3 x4 y4 Hmax Hsp Hpolys Hbefore Hhull.
    apply script_raises_run_reports.
    rewrite script_checked by assumption.
    rewrite Hpolys.
    rewrite (cursor_loop_stops before after f 1 rows ZeroDivisionError Hbefore);
      [reflexivity |].
    apply (update_zero_depth f _ d x1 y1 x2 y2 x3 y3 x4 y4); assumption.
Qed.

Lemma rectangle_characterisable (depth : num) :
  float depth <> 0 -> characterisable (rectangle depth).
Proof.
  intros Hd. unfold characterisable, rectangle. cbn.
  split; [| split].
  - exists 0, 0, 2, 0, 2, 1, 0, 1. split; [reflexivity |].
    left. intros H. apply math_hypot_zero in H. lra.
  - lra.
  - exists depth. split; [reflexivity | exact Hd].
Qed.

Lemma sound_polygon_characterisable : characterisable sound_polygon.
Proof. apply rectangle_characterisable. simpl. lra. Qed.

Lemma sound_then_flat :
  run (sample_run [sound_polygon; flat_polygon]) = Reported ZeroDivisionError.
Proof.
  destruct (cursor_loop_succeeds [sound_polygon] 1) as [rows Hrows].
  { constructor; [exact sound_polygon_characterisable | constructor]. }
  { simpl. lia. }
  apply script_raises_run_reports.
  rewrite script_checked by (simpl; try lra; reflexivity).
  change (smoothed_polygons (sample_run [sound_polygon; flat_polygon]))
    with ([sound_polygon] ++ flat_polygon :: []).
  rewrite (cursor_loop_stops [sound_polygon] [] flat_polygon 1 rows
             ZeroDivisionError Hrows); [reflexivity |].
  apply (update_zero_depth flat_polygon _ (PyFloat 0) 0 0 2 0 2 1 0 1); reflexivity.
Qed.

Lemma zero_depth_aborts_the_run_witness :
  In flat_polygon (smoothed_polygons (sample_run [sound_polygon; flat_polygon])) /\
  depth_field flat_polygon = Some (PyFloat 0) /\
  float (PyFloat 0) = 0 /\
  (exists e : exn,
      script (sample_run [sound_polygon; flat_polygon]) = Raise e /\
      run (sample_run [sound_polygon; flat_polygon]) = Reported e) /\
  run (sample_run [sound_polygon; flat_polygon]) = Reported ZeroDivisionError.
Proof.
  assert (Hin : In flat_polygon
                  (smoothed_polygons (sample_run [sound_polygon; flat_polygon])))
    by (right; left; reflexivity).
  assert (Hd : depth_field flat_polygon = Some (PyFloat 0)) by reflexivity.
  assert (Hz : float (PyFloat 0) = 0) by reflexivity.
  split; [exact Hin |]. split; [exact Hd |]. split; [exact Hz |].
  destruct (zero_depth_aborts_the_run
              (sample_run [sound_polygon; flat_polygon])
              flat_polygon (PyFloat 0) Hin Hd Hz) as [Hsome Hexact].
  split; [exact Hsome |].
  destruct (cursor_loop_succeeds [sound_polygon] 1) as [rows Hrows].
  { constructor; [exact sound_polygon_characterisable | constructor]. }
  { simpl. lia. }
  apply (Hexact [sound_polygon] [] rows 0 0 2 0 2 1 0 1).
  - simpl. lra.
  - reflexivity.
  - reflexivity.
  - exact Hrows.
  - reflexivity.
Defined.

(** C1, as the specification words it, does not hold.  Of two polygons,
    the first sound and the second of depth 0, none is saved: the run ends in
    the handler of the ZeroDivisionError. *)
Lemma zero_depth_is_not_skipped :
  characterisable sound_polygon /\ Spec.zero_depth flat_polygon /\
  run (sample_run [sound_polygon; flat_polygon]) = Reported ZeroDivisionError /\
  ~ Spec.skip_and_report (sample_run [sound_polygon; flat_polygon]).
Proof.
  split; [exact sound_polygon_characterisable |].
  split; [exists (PyFloat 0); split; reflexivity |].
  split; [exact sound_then_flat |].
  intros (out & Hsaved & _). rewrite sound_then_flat in Hsaved. discriminate.
Qed.

(** ** The shared identifier *)

Lemma DeleteIdentical_seen_spec (pts : list OutPoint) (seen : list (option Z)) :
  NoDup (map point_DEP_ID (DeleteIdentical_seen seen pts)) /\
  (forall p : OutPoint,
      In p (DeleteIdentical_seen seen pts) ->
      ~ In (point_DEP_ID p) seen /\
      exists before after : list OutPoint,
        pts = before ++ p :: after /\
        ~ In (point_DEP_ID p) (map point_DEP_ID before)) /\
  (forall p : OutPoint,
      In p pts ->
      In (point_DEP_ID p) seen \/
      In (point_DEP_ID p) (map point_DEP_ID (DeleteIdentical_seen seen pts))).
Proof.
  revert seen. induction pts as [| q rest IH]; intros seen.
  - simpl. split; [constructor |]. split; intros p [].
  - cbn [DeleteIdentical_seen].
    destruct (in_dec key_dec (point_DEP_ID q) seen) as [Hq | Hq].
    + destruct (IH seen) as (Hnd & Hfirst & Hall).
      split; [exact Hnd |]. split.
      * intros p Hp. destruct (Hfirst p Hp) as (Hns & before & after & Hsplit & Hnb).
        split; [exact Hns |].
        exists (q :: before), after. split; [rewrite Hsplit; reflexivity |].
        simpl. intros [Heq | Hin]; [| contradiction].
        apply Hns. rewrite <- Heq. exact Hq.
      * intros p [Hp | Hp]; [subst p; left; exact Hq | apply Hall; exact Hp].
    + destruct (IH (point_DEP_ID q :: seen)) as (Hnd & Hfirst & Hall).
      split; [| split].
      * simpl. constructor; [| exact Hnd].
        intros Hin. apply in_map_iff in Hin. destruct Hin as (p & Hkey & Hp).
        destruct (Hfirst p Hp) as (Hns & _). apply Hns. left. symmetry. exact Hkey.
      * intros p [Hp | Hp].
        -- subst p. split; [exact Hq |].
           exists [], rest. split; [reflexivity | intros []].
        -- destruct (Hfirst p Hp) as (Hns & before & after & Hsplit & Hnb).
           split; [intros Hin; apply Hns; right; exact Hin |].
           exists (q :: before), after. split; [rewrite Hsplit; reflexivity |].
           simpl. intros [Heq | Hin]; [| contradiction].
           apply Hns. left. exact Heq.
      * intros p [Hp | Hp].
        -- subst p. right. simpl. left. reflexivity.
        -- destruct (Hall p Hp) as [[Heq | Hs] | Ho].
           ++ right. simpl. left. exact Heq.
           ++ left. exact Hs.
           ++ right. simpl. right. exact Ho.
Qed.

Lemma In_SpatialJoin_from (pts : list DeepPoint) (polys : list Row)
    (fid : nat) (j : JoinedPoint) :
  In j (SpatialJoin_from fid pts polys) ->
  joined j = option_map field_mappings (hd_error (intersecting (target j) polys)) /\
  Join_Count j = List.length (intersecting (target j) polys) /\
  exists p : DeepPoint, In p pts /\ target j = location (point p).
Proof.
  revert fid. induction pts as [| p rest IH]; intros fid; simpl.
  - intros [].
  - intros [Hj | Hin].
    + subst j. cbn. repeat split. exists p. split; [now left | reflexivity].
    + destruct (IH _ Hin) as (H1 & H2 & q & Hq & Hl).
      repeat split; try assumption. exists q. split; [now right | exact Hl].
Qed.

Lemma hd_error_In {A : Type} (l : list A) (a : A) : hd_error l = Some a -> In a l.
Proof. destruct l; simpl; intros H; [discriminate | injection H as H; now left]. Qed.

(** A deepest point that carries attributes has them from a polygon that
    covers it. *)
Lemma joined_fields (pts : list DeepPoint) (polys : list Row)
    (p : OutPoint) (m : Mapped.t) :
  In p (DeleteField_management (SpatialJoin_analysis pts polys)) ->
  fields p = Some m ->
  exists r : Row,
    In r polys /\ Shape.covers (SHAPE r) (where_ p) = true /\ m = field_mappings r.
Proof.
  unfold DeleteField_management, SpatialJoin_analysis.
  intros Hin Hm. apply in_map_iff in Hin. destruct Hin as (j & Hp & Hj).
  subst p. cbn in *.
  apply In_SpatialJoin_from in Hj. destruct Hj as (Hjoined & _).
  rewrite Hjoined in Hm.
  destruct (hd_error (intersecting (target j) polys)) as [r |] eqn:Eh; [| discriminate].
  injection Hm as Hm. apply hd_error_In in Eh.
  unfold intersecting in Eh. apply filter_In in Eh. destruct Eh as [Hr Hc].
  exists r. repeat split; [exact Hr | exact Hc | symmetry; exact Hm].
Qed.


Lemma script_succeeds (i : Inputs) :
  maximum_value i <= 0 -> spatial_available i = true ->
  Forall characterisable (smoothed_polygons i) ->
  (Z.of_nat (List.length (smoothed_polygons i)) <= 32767)%Z ->
  exists out : Outputs, script i = Ok out.
Proof.
  intros Hmax Hsp Hall Hlen.
  destruct (cursor_loop_succeeds (smoothed_polygons i) 1 Hall) as [polys Hpolys]; [lia |].
  rewrite script_checked by assumption.
  change (Z.of_nat 1) with 1%Z in Hpolys. rewrite Hpolys. cbn [bind].
  eexists. reflexivity.
Qed.












(** ** IdentifyGeoDepressions.py: the size filter *)

Lemma sql_exp_true (i : Identify.Inputs) (c : Identify.Candidate) :
  Identify.sql_exp i c = true <->
  (2 * Identify.cell_size i) ^ 2 <= Identify.SHAPE_area c <= IZR (Identify.max_area i).
Proof.
  unfold Identify.sql_exp, Identify.min_area.
  replace ((Identify.cell_size i * 2) ^ 2) with ((2 * Identify.cell_size i) ^ 2) by ring.
  destruct (Rge_dec _ _) as [H1 | H1], (Rle_dec _ _) as [H2 | H2]; simpl;
    split; try discriminate; try reflexivity; intros H; lra.
Qed.

Lemma In_MakeFeatureLayer (i : Identify.Inputs) (c : Identify.Candidate) :
  In c (Identify.MakeFeatureLayer_management i) <->
  In c (Identify.raster_polygons i) /\
  (2 * Identify.cell_size i) ^ 2 <= Identify.SHAPE_area c <= IZR (Identify.max_area i).
Proof.
  unfold Identify.MakeFeatureLayer_management.
  rewrite filter_In, sql_exp_true. reflexivity.
Qed.

Lemma identify_never_NoFeatures (i : Identify.Inputs) :
  Identify.script i <> Raise NoFeatures.
Proof.
  unfold Identify.script.
  destruct (Rgt_dec (Identify.maximum i) 0); [discriminate |].
  destruct (negb (Identify.spatial_available i)); [discriminate |].
  cbv zeta. unfold Identify.Result_lt_int. discriminate.
Qed.

Lemma identify_script_checked (i : Identify.Inputs) :
  Identify.maximum i <= 0 -> Identify.spatial_available i = true ->
  Identify.script i
  = Ok (Identify.SpatialJoin_analysis (Identify.MakeFeatureLayer_management i)).
Proof.
  intros Hmax Hsp. unfold Identify.script.
  destruct (Rgt_dec (Identify.maximum i) 0); [lra |].
  rewrite Hsp. reflexivity.
Qed.

Lemma MakeFeatureLayer_empty (i : Identify.Inputs) :
  Identify.MakeFeatureLayer_management i = [] <->
  forall c : Identify.Candidate, In c (Identify.raster_polygons i) -> ~ in_size_range i c.
Proof.
  split.
  - intros He c Hc Hr.
    assert (H : In c (Identify.MakeFeatureLayer_management i))
      by (apply In_MakeFeatureLayer; split; assumption).
    rewrite He in H. destruct H.
  - intros Hnone.
    destruct (Identify.MakeFeatureLayer_management i) as [| c l] eqn:E; [reflexivity |].
    exfalso. assert (Hc : In c (Identify.MakeFeatureLayer_management i))
      by (rewrite E; now left).
    apply In_MakeFeatureLayer in Hc. destruct Hc as [Hc Hr]. exact (Hnone c Hc Hr).
Qed.

(** C6, on the code.  The feature layer keeps exactly the polygons whose
    area lies in [(2 cell_size)^2, max_area].  The test that should raise
    NoFeatures compares the Result object of GetCount_management with 1 and
    is never true: no run raises NoFeatures, and the run in which every
    polygon is out of range (areas 15 and 101 against the bounds 16 and 100)
    keeps nothing and still does not report it. *)
Theorem size_filter_and_dead_NoFeatures :
  (forall (i : Identify.Inputs) (c : Identify.Candidate),
      In c (Identify.MakeFeatureLayer_management i) <->
      In c (Identify.raster_polygons i) /\
      (2 * Identify.cell_size i) ^ 2 <= Identify.SHAPE_area c
                                     <= IZR (Identify.max_area i)) /\
  (forall i : Identify.Inputs,
      Identify.script i <> Raise NoFeatures /\
      Identify.run i <> Identify.Reported NoFeatures) /\
  Identify.MakeFeatureLayer_management out_of_range = [] /\
  Identify.run out_of_range <> Identify.Reported NoFeatures.
Proof.
  assert (Hnever : forall i : Identify.Inputs,
             Identify.script i <> Raise NoFeatures /\
             Identify.run i <> Identify.Reported NoFeatures).
  { intros i. split; [apply identify_never_NoFeatures |].
    unfold Identify.run. intros H.
    destruct (Identify.script i) as [out | e] eqn:E; [discriminate |].
    injection H as ->. exact (identify_never_NoFeatures i E). }
  assert (Hempty : Identify.MakeFeatureLayer_management out_of_range = []).
  { apply MakeFeatureLayer_empty.
    intros c [Hc | [Hc | []]]; subst c; unfold in_size_range; simpl; lra. }
  split; [intros i c; apply In_MakeFeatureLayer |].
  split; [exact Hnever |].
  split; [exact Hempty | apply Hnever].
Qed.

(** * Further properties of the two scripts *)

(** ** Geometry primitives *)

(** X2. [azimuth] needs four coordinates: a shorter list raises IndexError,
    and with four or more it returns a bearing in [0, 180] computed from the
    first four alone. *)
Theorem azimuth_coordinates (coords : list R) :
  ((List.length coords < 4)%nat -> azimuth coords = Raise IndexError) /\
  (forall (x1 x2 y1 y2 : R) (more : list R),
      coords = x1 :: x2 :: y1 :: y2 :: more ->
      azimuth coords = azimuth [x1; x2; y1; y2] /\
      exists degrees : R, azimuth coords = Ok degrees /\ 0 <= degrees <= 180).
Proof.
  split.
  - intros Hlen.
    destruct coords as [| a [| b [| c [| d l]]]]; try reflexivity.
    simpl in Hlen. lia.
  - intros x1 x2 y1 y2 more Hc. subst coords.
    split; [reflexivity |].
    destruct (azimuth_range x1 x2 y1 y2) as (deg & Hdeg & Hr).
    exists deg. split; [exact Hdeg | exact Hr].
Qed.

Lemma azimuth_coordinates_witness :
  (List.length [3; 8; 1] < 4)%nat /\ azimuth [3; 8; 1] = Raise IndexError.
Proof.
  assert (H : (List.length [3; 8; 1] < 4)%nat) by (simpl; lia).
  split; [exact H | exact (proj1 (azimuth_coordinates [3; 8; 1]) H)].
Defined.

(** X3. [eccentricity] called with the axes the wrong way round, a minor
    axis longer than a non-zero major axis, raises ValueError: the square
    root is taken of a negative number. *)
Theorem eccentricity_axes_swapped (major minor : num) :
  float major <> 0 -> Rabs (float major) < Rabs (float minor) ->
  eccentricity major minor = Raise ValueError.
Proof.
  intros HM Hlt. unfold eccentricity.
  assert (HM2 : float major ^ 2 <> 0) by (apply pow_nonzero; exact HM).
  rewrite div_float_r by exact HM2. cbn [bind float].
  unfold math_sqrt.
  destruct (Rlt_dec _ 0) as [_ | Hn]; [reflexivity |].
  exfalso. apply Hn.
  assert (Hsq : float major * float major < float minor * float minor).
  { apply Rsqr_lt_abs_1 in Hlt. exact Hlt. }
  assert (Hpos : 0 < float major ^ 2) by (simpl; nra).
  apply Rmult_lt_reg_r with (float major ^ 2); [exact Hpos |].
  unfold Rdiv. rewrite Rmult_assoc, Rinv_l by lra. simpl. nra.
Qed.

Lemma eccentricity_axes_swapped_witness :
  float (PyInt 3) <> 0 /\ Rabs (float (PyInt 3)) < Rabs (float (PyFloat 5)) /\
  eccentricity (PyInt 3) (PyFloat 5) = Raise ValueError.
Proof.
  assert (H1 : float (PyInt 3) <> 0) by (simpl; lra).
  assert (H2 : Rabs (float (PyInt 3)) < Rabs (float (PyFloat 5)))
    by (simpl; rewrite !Rabs_pos_eq; lra).
  split; [exact H1 |]. split; [exact H2 |].
  exact (eccentricity_axes_swapped (PyInt 3) (PyFloat 5) H1 H2).
Defined.

Lemma thinness_ratio_float (a p : R) :
  thinness_ratio (PyFloat a) (PyFloat p)
  = if Req_dec_T p 0 then Raise ZeroDivisionError
    else Ok ((4 * PI) * (a / p ^ 2)).
Proof.
  unfold thinness_ratio. cbn [pow2].
  destruct (Req_dec_T p 0) as [H0 | H0].
  - rewrite div_by_zero; [reflexivity |]. simpl. rewrite H0. ring.
  - rewrite div_float_r by (apply pow_nonzero; exact H0). reflexivity.
Qed.

(** X5. A perimeter of zero, integer or float, makes [thinness_ratio] raise
    ZeroDivisionError whatever the area. *)
Theorem thinness_ratio_zero_perimeter (area perimeter : num) :
  float perimeter = 0 -> thinness_ratio area perimeter = Raise ZeroDivisionError.
Proof.
  intros H0. unfold thinness_ratio.
  rewrite div_by_zero; [reflexivity |].
  destruct perimeter as [p | p]; cbn [pow2 float] in *.
  - apply eq_IZR in H0. subst p. reflexivity.
  - rewrite H0. ring.
Qed.

Lemma thinness_ratio_zero_perimeter_witness :
  float (PyInt 0) = 0 /\ thinness_ratio (PyFloat 12) (PyInt 0) = Raise ZeroDivisionError.
Proof.
  assert (H : float (PyInt 0) = 0) by reflexivity.
  split; [exact H | exact (thinness_ratio_zero_perimeter (PyFloat 12) (PyInt 0) H)].
Defined.

(** X6. [diameter_depth_ratio] raises ZeroDivisionError on a zero depth and
    otherwise returns a value that is never negative; on floats the value
    does not depend on the sign of the depth (bathymetric depths are
    negative), which floor division does not grant on integers. *)
Theorem diameter_depth_ratio_sign :
  (forall diameter depth : num,
      float depth = 0 -> diameter_depth_ratio diameter depth = Raise ZeroDivisionError) /\
  (forall diameter depth ratio : num,
      diameter_depth_ratio diameter depth = Ok ratio -> 0 <= float ratio) /\
  (forall diameter depth : R,
      diameter_depth_ratio (PyFloat diameter) (PyFloat (- depth))
      = diameter_depth_ratio (PyFloat diameter) (PyFloat depth)) /\
  diameter_depth_ratio (PyInt 7) (PyInt 2) = Ok (PyInt 3) /\
  diameter_depth_ratio (PyInt 7) (PyInt (-2)) = Ok (PyInt 4).
Proof.
  split; [| split; [| split; [| split]]].
  - intros diameter depth H0. unfold diameter_depth_ratio.
    rewrite div_by_zero by exact H0. reflexivity.
  - intros diameter depth ratio. unfold diameter_depth_ratio.
    destruct (div diameter depth) as [q |]; cbn [bind]; [| discriminate].
    intros H. injection H as H. subst ratio.
    destruct q as [n | r]; cbn [abs float].
    + apply IZR_le. apply Z.abs_nonneg.
    + apply Rabs_pos.
  - intros diameter depth. unfold diameter_depth_ratio.
    destruct (Req_dec_T depth 0) as [H0 | H0].
    + rewrite !div_by_zero; [reflexivity | |]; simpl; rewrite H0; ring.
    + rewrite !div_float_r by lra. cbn [bind abs float]. do 2 f_equal.
      replace (diameter / - depth) with (- (diameter / depth)) by (field; exact H0).
      apply Rabs_Ropp.
  - unfold diameter_depth_ratio. rewrite div_int by lia. reflexivity.
  - unfold diameter_depth_ratio. rewrite div_int by lia. reflexivity.
Qed.

Lemma diameter_depth_ratio_sign_witness :
  float (PyFloat 0) = 0 /\
  diameter_depth_ratio (PyFloat 30) (PyFloat 0) = Raise ZeroDivisionError.
Proof.
  assert (H : float (PyFloat 0) = 0) by reflexivity.
  split; [exact H | exact (proj1 diameter_depth_ratio_sign (PyFloat 30) (PyFloat 0) H)].
Defined.

(** X7. The two reference shapes are never taken for irregular ones by
    their outline: the thinness ratio of a circle and that of a square, of
    any size, are at least 0.75, so both are labelled regular unless the
    diameter/depth ratio exceeds 100, which makes them irregular. *)
Theorem circle_and_square_labels (size : R) (dd_ratio : num) :
  size > 0 ->
  exists circle square : R,
    thinness_ratio (PyFloat (PI * size ^ 2)) (PyFloat (2 * PI * size)) = Ok circle /\
    thinness_ratio (PyFloat (size ^ 2)) (PyFloat (4 * size)) = Ok square /\
    0.75 <= circle /\ 0.75 <= square /\
    (float dd_ratio <= 100 ->
     shape_descriptor (PyFloat circle) dd_ratio = REGULAR /\
     shape_descriptor (PyFloat square) dd_ratio = REGULAR) /\
    (float dd_ratio > 100 ->
     shape_descriptor (PyFloat circle) dd_ratio = IRREGULAR /\
     shape_descriptor (PyFloat square) dd_ratio = IRREGULAR).
Proof.
  intros Hs. assert (Hpi := PI2_3_2).
  exists 1, (PI / 4).
  split.
  { rewrite thinness_ratio_float.
    destruct (Req_dec_T (2 * PI * size) 0) as [H0 | H0]; [exfalso; nra |].
    f_equal. field. split; lra. }
  split.
  { rewrite thinness_ratio_float.
    destruct (Req_dec_T (4 * size) 0) as [H0 | H0]; [exfalso; lra |].
    f_equal. field. lra. }
  split; [lra |]. split; [lra |].
  unfold shape_descriptor. cbn [float].
  split; intros Hd.
  - destruct (Rlt_dec 1 0.5); [lra |]. destruct (Rlt_dec (PI / 4) 0.5); [lra |].
    destruct (Rgt_dec (float dd_ratio) 100); [lra |].
    destruct (Rlt_dec 1 0.75); [lra |]. destruct (Rlt_dec (PI / 4) 0.75); [lra |].
    split; reflexivity.
  - destruct (Rlt_dec 1 0.5); [lra |]. destruct (Rlt_dec (PI / 4) 0.5); [lra |].
    destruct (Rgt_dec (float dd_ratio) 100); [| lra].
    split; reflexivity.
Qed.

Lemma circle_and_square_labels_witness :
  25 > 0 /\
  exists circle square : R,
    thinness_ratio (PyFloat (PI * 25 ^ 2)) (PyFloat (2 * PI * 25)) = Ok circle /\
    thinness_ratio (PyFloat (25 ^ 2)) (PyFloat (4 * 25)) = Ok square /\
    0.75 <= circle /\ 0.75 <= square.
Proof.
  assert (H : 25 > 0) by lra.
  split; [exact H |].
  destruct (circle_and_square_labels 25 (PyFloat 40) H)
    as (c & s & H1 & H2 & H3 & H4 & _).
  exists c, s. repeat split; assumption.
Defined.

(** ** The rows the update cursor writes *)

Lemma diameter_depth_ratio_float (x : R) (d : num) :
  diameter_depth_ratio (PyFloat x) d
  = if Req_dec_T (float d) 0 then Raise ZeroDivisionError
    else Ok (PyFloat (Rabs (x / float d))).
Proof.
  unfold diameter_depth_ratio.
  destruct (Req_dec_T (float d) 0) as [H0 | H0].
  - rewrite div_by_zero by exact H0. reflexivity.
  - rewrite div_float_l by exact H0. reflexivity.
Qed.

(** The update of a polygon whose hull rectangle unpacks, with the longer
    edge [maj_axis], the shorter [min_axis] and the ends (a1, b1), (a2, b2)
    of the edge that gives the azimuth. *)
Lemma update_axes (f : Feature) (k : Z) (maj_axis min_axis a1 a2 b1 b2 : R) :
  0 <= min_axis <= maj_axis ->
  (row6 <- eccentricity (PyFloat maj_axis) (PyFloat min_axis) ;;
   row7 <- azimuth [a1; a2; b1; b2] ;;
   row8 <- thinness_ratio (PyFloat (Shape.area (shape_object f)))
                          (PyFloat (Shape.length (shape_object f))) ;;
   average_diameter <- div (add (PyFloat maj_axis) (PyFloat min_axis)) (PyInt 2) ;;
   row11 <- match depth_field f with
            | Some d => Ok d
            | None => Raise TypeError
            end ;;
   row10 <- diameter_depth_ratio average_diameter row11 ;;
   updateRow {| SHAPE := shape_object f; DEP_ID := k;
                AREA_M := Shape.area (shape_object f);
                PERIMETER := Shape.length (shape_object f);
                MAJ_AXIS := maj_axis; MIN_AXIS := min_axis;
                ECC := row6; AZIMUTH := row7; THIN_RAT := row8;
                MORP_CHAR := shape_descriptor (PyFloat row8) row10;
                DIDP_RAT := row10; POCK_DEP := row11 |})
  = if Req_dec_T maj_axis 0 then Raise ZeroDivisionError
    else if Req_dec_T (Shape.length (shape_object f)) 0 then Raise ZeroDivisionError
    else match depth_field f with
         | None => Raise TypeError
         | Some d =>
             if Req_dec_T (float d) 0 then Raise ZeroDivisionError
             else if (k <=? 32767)%Z then
               Ok {| SHAPE := shape_object f; DEP_ID := k;
                     AREA_M := Shape.area (shape_object f);
                     PERIMETER := Shape.length (shape_object f);
                     MAJ_AXIS := maj_axis; MIN_AXIS := min_axis;
                     ECC := sqrt ((maj_axis ^ 2 - min_axis ^ 2) / maj_axis ^ 2);
                     AZIMUTH :=
                       fold_degrees ((math_atan2 (a2 - a1) (b2 - b1) * 180) / PI);
                     THIN_RAT :=
                       (4 * PI) * (Shape.area (shape_object f)
                                   / Shape.length (shape_object f) ^ 2);
                     MORP_CHAR :=
                       shape_descriptor
                         (PyFloat ((4 * PI) * (Shape.area (shape_object f)
                                               / Shape.length (shape_object f) ^ 2)))
                         (PyFloat (Rabs ((maj_axis + min_axis) / 2 / float d)));
                     DIDP_RAT := PyFloat (Rabs ((maj_axis + min_axis) / 2 / float d));
                     POCK_DEP := d |}
             else Raise RuntimeError
         end.
Proof.
  intros Haxes.
  rewrite eccentricity_of_axes by exact Haxes.
  destruct (Req_dec_T maj_axis 0); [reflexivity |]. cbn [bind].
  rewrite azimuth_unfold. cbn [bind].
  rewrite thinness_ratio_float.
  destruct (Req_dec_T (Shape.length (shape_object f)) 0); [reflexivity |]. cbn [bind].
  cbn [add float]. rewrite div_float_l by (simpl; lra). cbn [bind float].
  destruct (depth_field f) as [d |]; [| reflexivity]. cbn [bind].
  rewrite diameter_depth_ratio_float.
  destruct (Req_dec_T (float d) 0); [reflexivity |]. cbn [bind].
  unfold updateRow. cbn [DEP_ID]. reflexivity.
Qed.

Lemma update_cases (f : Feature) (k : Z) :
  (List.length (Shape.hullRectangle (shape_object f)) <> 8%nat /\
   update f k = Raise ValueError) \/
  (exists x1 y1 x2 y2 x3 y3 x4 y4 maj_axis min_axis a1 a2 b1 b2 : R,
      Shape.hullRectangle (shape_object f) = [x1; y1; x2; y2; x3; y3; x4; y4] /\
      maj_axis = Rmax (math_hypot (x1 - x2) (y1 - y2)) (math_hypot (x2 - x3) (y2 - y3)) /\
      min_axis = Rmin (math_hypot (x1 - x2) (y1 - y2)) (math_hypot (x2 - x3) (y2 - y3)) /\
      0 <= min_axis <= maj_axis /\
      ((math_hypot (x1 - x2) (y1 - y2) <= math_hypot (x2 - x3) (y2 - y3) /\
        [a1; a2; b1; b2] = [x2; x3; y2; y3]) \/
       (math_hypot (x2 - x3) (y2 - y3) < math_hypot (x1 - x2) (y1 - y2) /\
        [a1; a2; b1; b2] = [x1; x2; y1; y2])) /\
      update f k =
      if Req_dec_T maj_axis 0 then Raise ZeroDivisionError
      else if Req_dec_T (Shape.length (shape_object f)) 0 then Raise ZeroDivisionError
      else match depth_field f with
           | None => Raise TypeError
           | Some d =>
               if Req_dec_T (float d) 0 then Raise ZeroDivisionError
               else if (k <=? 32767)%Z then
                 Ok {| SHAPE := shape_object f; DEP_ID := k;
                       AREA_M := Shape.area (shape_object f);
                       PERIMETER := Shape.length (shape_object f);
                       MAJ_AXIS := maj_axis; MIN_AXIS := min_axis;
                       ECC := sqrt ((maj_axis ^ 2 - min_axis ^ 2) / maj_axis ^ 2);
                       AZIMUTH :=
                         fold_degrees ((math_atan2 (a2 - a1) (b2 - b1) * 180) / PI);
                       THIN_RAT :=
                         (4 * PI) * (Shape.area (shape_object f)
                                     / Shape.length (shape_object f) ^ 2);
                       MORP_CHAR :=
                         shape_descriptor
                           (PyFloat ((4 * PI) * (Shape.area (shape_object f)
                                                 / Shape.length (shape_object f) ^ 2)))
                           (PyFloat (Rabs ((maj_axis + min_axis) / 2 / float d)));
                       DIDP_RAT := PyFloat (Rabs ((maj_axis + min_axis) / 2 / float d));
                       POCK_DEP := d |}
               else Raise RuntimeError
           end).
Proof.
  unfold update.
  destruct (Shape.hullRectangle (shape_object f))
    as [| x1 [| y1 [| x2 [| y2 [| x3 [| y3 [| x4 [| y4 [| z zs]]]]]]]]];
    try (left; split; [simpl; lia | reflexivity]).
  right.
  assert (H1 := math_hypot_nonneg (x1 - x2) (y1 - y2)).
  assert (H2 := math_hypot_nonneg (x2 - x3) (y2 - y3)).
  destruct (Rle_dec _ _) as [Hc | Hc]; cbv beta iota.
  - exists x1, y1, x2, y2, x3, y3, x4, y4,
      (math_hypot (x2 - x3) (y2 - y3)), (math_hypot (x1 - x2) (y1 - y2)),
      x2, x3, y2, y3.
    split; [reflexivity |].
    split; [symmetry; apply Rmax_right; exact Hc |].
    split; [symmetry; apply Rmin_left; exact Hc |].
    split; [lra |].
    split; [left; split; [exact Hc | reflexivity] |].
    apply update_axes. lra.
  - exists x1, y1, x2, y2, x3, y3, x4, y4,
      (math_hypot (x1 - x2) (y1 - y2)), (math_hypot (x2 - x3) (y2 - y3)),
      x1, x2, y1, y2.
    split; [reflexivity |].
    split; [symmetry; apply Rmax_left; lra |].
    split; [symmetry; apply Rmin_right; lra |].
    split; [lra |].
    split; [right; split; [lra | reflexivity] |].
    apply update_axes. lra.
Qed.

Ltac update_ok_cases H :=
  match type of H with
  | update ?f ?k = Ok ?row =>
      let Hlen := fresh "Hlen" in
      let Hu := fresh "Hu" in
      destruct (update_cases f k)
        as [[Hlen Hu] | (x1 & y1 & x2 & y2 & x3 & y3 & x4 & y4 & maj_axis & min_axis
                         & a1 & a2 & b1 & b2 & Hhull & Hmaj & Hmin & Haxes & Hedge & Hu)];
      [rewrite Hu in H; discriminate |];
      rewrite Hu in H; clear Hu;
      let Hmaj0 := fresh "Hmaj0" in
      let Hlen0 := fresh "Hlen0" in
      let Hd0 := fresh "Hd0" in
      let Hk := fresh "Hk" in
      destruct (Req_dec_T maj_axis 0) as [| Hmaj0]; [discriminate |];
      destruct (Req_dec_T (Shape.length (shape_object f)) 0) as [| Hlen0];
      [discriminate |];
      destruct (depth_field f) as [d |] eqn:Hdepth; [| discriminate];
      destruct (Req_dec_T (float d) 0) as [| Hd0]; [discriminate |];
      destruct (Z.leb_spec k 32767) as [Hk | Hk]; [| discriminate];
      injection H as H; subst row;
      cbn [SHAPE DEP_ID AREA_M PERIMETER MAJ_AXIS MIN_AXIS ECC AZIMUTH THIN_RAT
           MORP_CHAR DIDP_RAT POCK_DEP]
  end.

Lemma eccentricity_axes_range (maj_axis min_axis : R) :
  0 <= min_axis <= maj_axis -> maj_axis <> 0 ->
  0 <= sqrt ((maj_axis ^ 2 - min_axis ^ 2) / maj_axis ^ 2) <= 1 /\
  (sqrt ((maj_axis ^ 2 - min_axis ^ 2) / maj_axis ^ 2) = 0 <-> min_axis = maj_axis) /\
  (sqrt ((maj_axis ^ 2 - min_axis ^ 2) / maj_axis ^ 2) = 1 <-> min_axis = 0).
Proof.
  intros [Hmin Hmaj] H0.
  assert (Ha2 : 0 < maj_axis ^ 2) by (simpl; nra).
  set (q := (maj_axis ^ 2 - min_axis ^ 2) / maj_axis ^ 2).
  assert (Hq : q * maj_axis ^ 2 = maj_axis ^ 2 - min_axis ^ 2).
  { unfold q, Rdiv. rewrite Rmult_assoc, Rinv_l by lra. ring. }
  assert (Hq0 : 0 <= q).
  { unfold q. apply Rmult_le_pos; [simpl; nra | left; apply Rinv_0_lt_compat; exact Ha2]. }
  assert (Hq1 : q <= 1) by (simpl in *; nra).
  split; [| split].
  - split; [apply sqrt_pos |]. rewrite <- sqrt_1. apply sqrt_le_1_alt. exact Hq1.
  - split.
    + intros Hs. apply sqrt_eq_0 in Hs; [| exact Hq0]. rewrite Hs in Hq. simpl in Hq. nra.
    + intros He. replace q with 0; [apply sqrt_0 |].
      unfold q. rewrite He. unfold Rdiv. ring.
  - split.
    + intros Hs. assert (Hq' : q = 1).
      { rewrite <- (sqrt_sqrt q Hq0), Hs. ring. }
      rewrite Hq' in Hq. simpl in Hq. nra.
    + intros He. replace q with 1; [apply sqrt_1 |].
      unfold q. rewrite He. simpl. field. exact H0.
Qed.

Lemma updated_row_axes_aux (f : Feature) (k : Z) (row : Row) :
  update f k = Ok row ->
  exists x1 y1 x2 y2 x3 y3 x4 y4 : R,
    Shape.hullRectangle (shape_object f) = [x1; y1; x2; y2; x3; y3; x4; y4] /\
    MAJ_AXIS row = Rmax (math_hypot (x1 - x2) (y1 - y2)) (math_hypot (x2 - x3) (y2 - y3)) /\
    MIN_AXIS row = Rmin (math_hypot (x1 - x2) (y1 - y2)) (math_hypot (x2 - x3) (y2 - y3)) /\
    (math_hypot (x1 - x2) (y1 - y2) <= math_hypot (x2 - x3) (y2 - y3) ->
     azimuth [x2; x3; y2; y3] = Ok (AZIMUTH row)) /\
    (math_hypot (x2 - x3) (y2 - y3) < math_hypot (x1 - x2) (y1 - y2) ->
     azimuth [x1; x2; y1; y2] = Ok (AZIMUTH row)).
Proof.
  intros H. update_ok_cases H.
  exists x1, y1, x2, y2, x3, y3, x4, y4.
  split; [exact Hhull |]. split; [exact Hmaj |]. split; [exact Hmin |].
  destruct Hedge as [[Hle Hc] | [Hlt Hc]]; injection Hc as -> -> -> ->.
  - split; [intros _; apply azimuth_unfold | intros Hlt; lra].
  - split; [intros Hle; lra | intros _; apply azimuth_unfold].
Qed.

(** X8. In a row the cursor has updated, MAJ_AXIS and MIN_AXIS are the
    longer and the shorter of the two hull-rectangle edges (corner 1 to 2,
    corner 2 to 3), MAJ_AXIS is positive, ECC lies in [0, 1] (0 for a square
    hull, 1 for a hull flattened to a segment), and AZIMUTH, in [0, 180], is
    the bearing of the longer edge, the second edge when the two are equal. *)
Theorem updated_row_axes (f : Feature) (k : Z) (row : Row) :
  update f k = Ok row ->
  exists x1 y1 x2 y2 x3 y3 x4 y4 : R,
    Shape.hullRectangle (shape_object f) = [x1; y1; x2; y2; x3; y3; x4; y4] /\
    MAJ_AXIS row = Rmax (math_hypot (x1 - x2) (y1 - y2)) (math_hypot (x2 - x3) (y2 - y3)) /\
    MIN_AXIS row = Rmin (math_hypot (x1 - x2) (y1 - y2)) (math_hypot (x2 - x3) (y2 - y3)) /\
    0 <= MIN_AXIS row <= MAJ_AXIS row /\ 0 < MAJ_AXIS row /\
    eccentricity (PyFloat (MAJ_AXIS row)) (PyFloat (MIN_AXIS row)) = Ok (ECC row) /\
    0 <= ECC row <= 1 /\
    (MIN_AXIS row = MAJ_AXIS row -> ECC row = 0) /\
    (MIN_AXIS row = 0 -> ECC row = 1) /\
    0 <= AZIMUTH row <= 180 /\
    (math_hypot (x1 - x2) (y1 - y2) <= math_hypot (x2 - x3) (y2 - y3) ->
     azimuth [x2; x3; y2; y3] = Ok (AZIMUTH row)) /\
    (math_hypot (x2 - x3) (y2 - y3) < math_hypot (x1 - x2) (y1 - y2) ->
     azimuth [x1; x2; y1; y2] = Ok (AZIMUTH row)).
Proof.
  intros H. update_ok_cases H.
  exists x1, y1, x2, y2, x3, y3, x4, y4.
  destruct (eccentricity_axes_range maj_axis min_axis Haxes Hmaj0) as (He & He0 & He1).
  split; [exact Hhull |]. split; [exact Hmaj |]. split; [exact Hmin |].
  split; [exact Haxes |]. split; [lra |].
  split.
  { rewrite eccentricity_of_axes by exact Haxes.
    destruct (Req_dec_T maj_axis 0); [contradiction | reflexivity]. }
  split; [exact He |]. split; [apply He0 |]. split; [apply He1 |].
  split; [apply fold_degrees_range, math_atan2_range |].
  destruct Hedge as [[Hle Hc] | [Hlt Hc]]; injection Hc as -> -> -> ->.
  - split; [intros _; apply azimuth_unfold | intros Hlt; lra].
  - split; [intros Hle; lra | intros _; apply azimuth_unfold].
Qed.

Lemma updated_row_axes_witness :
  exists row : Row,
    update sound_polygon 1 = Ok row /\
    0 <= MIN_AXIS row <= MAJ_AXIS row /\ 0 < MAJ_AXIS row /\
    0 <= ECC row <= 1 /\ 0 <= AZIMUTH row <= 180.
Proof.
  destruct (update_succeeds sound_polygon 1 sound_polygon_characterisable)
    as [row Hrow]; [lia |].
  exists row. split; [exact Hrow |].
  destruct (updated_row_axes sound_polygon 1 row Hrow)
    as (x1 & y1 & x2 & y2 & x3 & y3 & x4 & y4 & _ & _ & _ & H1 & H2 & _ & H3 & _ & _ & H4 & _).
  repeat split; tauto.
Defined.

Lemma shape_descriptor_labels (t d : num) :
  shape_descriptor t d = IRREGULAR \/ shape_descriptor t d = SEMI_REGULAR \/
  shape_descriptor t d = REGULAR.
Proof.
  unfold shape_descriptor.
  destruct (Rlt_dec (float t) 0.5); [now left |].
  destruct (Rgt_dec (float d) 100); [now left |].
  destruct (Rlt_dec (float t) 0.75); [right; now left | right; now right].
Qed.

(** X9. In a row the cursor has updated, AREA_M and PERIMETER are the area
    and the length of the geometry, THIN_RAT is their thinness ratio,
    DIDP_RAT is the float |((MAJ_AXIS + MIN_AXIS) / 2) / POCK_DEP| even when
    the depth field holds an integer, and MORP_CHAR is the label of
    THIN_RAT and DIDP_RAT, one of the three texts. *)
Theorem updated_row_ratios (f : Feature) (k : Z) (row : Row) :
  update f k = Ok row ->
  DEP_ID row = k /\ SHAPE row = shape_object f /\
  AREA_M row = Shape.area (shape_object f) /\
  PERIMETER row = Shape.length (shape_object f) /\ PERIMETER row <> 0 /\
  thinness_ratio (PyFloat (AREA_M row)) (PyFloat (PERIMETER row)) = Ok (THIN_RAT row) /\
  depth_field f = Some (POCK_DEP row) /\ float (POCK_DEP row) <> 0 /\
  DIDP_RAT row
  = PyFloat (Rabs ((MAJ_AXIS row + MIN_AXIS row) / 2 / float (POCK_DEP row))) /\
  MORP_CHAR row = shape_descriptor (PyFloat (THIN_RAT row)) (DIDP_RAT row) /\
  (MORP_CHAR row = IRREGULAR \/ MORP_CHAR row = SEMI_REGULAR \/ MORP_CHAR row = REGULAR).
Proof.
  intros H. update_ok_cases H.
  repeat (split; [first [reflexivity | assumption] |]).
  split.
  { rewrite thinness_ratio_float.
    destruct (Req_dec_T (Shape.length (shape_object f)) 0); [contradiction | reflexivity]. }
  repeat (split; [first [reflexivity | assumption] |]).
  apply shape_descriptor_labels.
Qed.

Lemma updated_row_ratios_witness :
  exists row : Row,
    update (rectangle (PyInt 2)) 5 = Ok row /\
    DEP_ID row = 5%Z /\
    DIDP_RAT row = PyFloat (Rabs ((MAJ_AXIS row + MIN_AXIS row) / 2 / float (POCK_DEP row))).
Proof.
  destruct (update_succeeds (rectangle (PyInt 2)) 5) as [row Hrow].
  - apply rectangle_characterisable. simpl. lra.
  - lia.
  - exists row. split; [exact Hrow |].
    destruct (updated_row_ratios _ _ _ Hrow) as (H1 & _ & _ & _ & _ & _ & _ & _ & H2 & _).
    split; assumption.
Defined.

Lemma Rmax_hypot_zero (d1 d2 : R) :
  0 <= d1 -> 0 <= d2 -> (Rmax d1 d2 <> 0 <-> d1 <> 0 \/ d2 <> 0).
Proof.
  intros H1 H2. unfold Rmax. destruct (Rle_dec d1 d2); split; intros H; lra.
Qed.

(** Every way the update of one polygon can end. *)
Lemma update_outcomes_all (f : Feature) (k : Z) :
  ((exists row : Row, update f k = Ok row) <-> characterisable f /\ (k <= 32767)%Z) /\
  (update f k = Raise ValueError <->
   List.length (Shape.hullRectangle (shape_object f)) <> 8%nat) /\
  (update f k = Raise TypeError -> depth_field f = None) /\
  (update f k = Raise RuntimeError <-> characterisable f /\ (32767 < k)%Z) /\
  (forall e : exn,
      update f k = Raise e ->
      e = ValueError \/ e = ZeroDivisionError \/ e = TypeError \/ e = RuntimeError).
Proof.
  assert (Hok : (exists row : Row, update f k = Ok row) <->
                characterisable f /\ (k <= 32767)%Z).
  { split.
    - intros [row H]. update_ok_cases H.
      split; [| exact Hk]. split; [| split].
      + exists x1, y1, x2, y2, x3, y3, x4, y4. split; [exact Hhull |].
        apply Rmax_hypot_zero; try apply math_hypot_nonneg.
        rewrite <- Hmaj. exact Hmaj0.
      + exact Hlen0.
      + exists d. split; [exact Hdepth | exact Hd0].
    - intros [Hc Hk]. apply update_succeeds; assumption. }
  split; [exact Hok |].
  destruct (update_cases f k)
    as [[Hlen Hu] | (x1 & y1 & x2 & y2 & x3 & y3 & x4 & y4 & maj_axis & min_axis
                     & a1 & a2 & b1 & b2 & Hhull & Hmaj & Hmin & Haxes & Hedge & Hu)].
  { rewrite Hu. split; [tauto |]. split; [discriminate |].
    split.
    - split; [discriminate |]. intros [Hc _].
      destruct Hc as [(z1 & z2 & z3 & z4 & z5 & z6 & z7 & z8 & Hh & _) _].
      rewrite Hh in Hlen. simpl in Hlen. congruence.
    - intros e He. injection He as <-. now left. }
  assert (Hlen : List.length (Shape.hullRectangle (shape_object f)) = 8%nat)
    by (rewrite Hhull; reflexivity).
  assert (Hchar : characterisable f <->
                  maj_axis <> 0 /\ Shape.length (shape_object f) <> 0 /\
                  exists d : num, depth_field f = Some d /\ float d <> 0).
  { unfold characterisable. split.
    - intros [(z1 & z2 & z3 & z4 & z5 & z6 & z7 & z8 & Hh & Hne) Hrest].
      rewrite Hhull in Hh. injection Hh as <- <- <- <- <- <- <- <-.
      split; [| exact Hrest].
      rewrite Hmaj. apply Rmax_hypot_zero; try apply math_hypot_nonneg. exact Hne.
    - intros [Hm Hrest]. split; [| exact Hrest].
      exists x1, y1, x2, y2, x3, y3, x4, y4. split; [exact Hhull |].
      apply Rmax_hypot_zero; try apply math_hypot_nonneg.
      rewrite <- Hmaj. exact Hm. }
  rewrite Hu, Hchar.
  destruct (Req_dec_T maj_axis 0) as [Hm | Hm].
  { split; [split; [discriminate | congruence] |]. split; [discriminate |].
    split; [split; [discriminate | tauto] |].
    intros e He. injection He as <-. right. now left. }
  destruct (Req_dec_T (Shape.length (shape_object f)) 0) as [Hl | Hl].
  { split; [split; [discriminate | congruence] |]. split; [discriminate |].
    split; [split; [discriminate | tauto] |].
    intros e He. injection He as <-. right. now left. }
  destruct (depth_field f) as [d |].
  2:{ split; [split; [discriminate | congruence] |]. split; [reflexivity |].
      split; [split; [discriminate | intros [(_ & _ & d & Hd & _) _]; discriminate] |].
      intros e He. injection He as <-. right. right. now left. }
  destruct (Req_dec_T (float d) 0) as [Hd | Hd].
  { split; [split; [discriminate | congruence] |]. split; [discriminate |].
    split.
    - split; [discriminate |].
      intros [(_ & _ & d' & Hd' & Hnz) _]. injection Hd' as <-. contradiction.
    - intros e He. injection He as <-. right. now left. }
  destruct (Z.leb_spec k 32767) as [Hk | Hk].
  { split; [split; [discriminate | congruence] |]. split; [discriminate |].
    split; [split; [discriminate | lia] |].
    intros e He. discriminate. }
  split; [split; [discriminate | congruence] |]. split; [discriminate |].
  split.
  - split; [intros _ | reflexivity].
    split; [| exact Hk]. split; [exact Hm |]. split; [exact Hl |].
    exists d. split; [reflexivity | exact Hd].
  - intros e He. injection He as <-. right. right. now right.
Qed.

(** X10. With an identifier that fits the DEP_ID field, the update of one
    polygon succeeds exactly on a characterisable polygon.  Otherwise it
    raises ValueError exactly when the hull rectangle is not eight numbers
    (the square root of [eccentricity] never fails here), TypeError only on a
    null depth, and ZeroDivisionError in every other case: a hull reduced to
    a point, a zero perimeter or a zero depth. *)
Theorem update_outcomes (f : Feature) (k : Z) :
  (k <= 32767)%Z ->
  ((exists row : Row, update f k = Ok row) <-> characterisable f) /\
  (update f k = Raise ValueError <->
   List.length (Shape.hullRectangle (shape_object f)) <> 8%nat) /\
  (update f k = Raise TypeError -> depth_field f = None) /\
  (forall e : exn,
      update f k = Raise e ->
      e = ValueError \/ e = ZeroDivisionError \/ e = TypeError).
Proof.
  intros Hk.
  destruct (update_outcomes_all f k) as (Hok & Hvalue & Htype & Hruntime & Hall).
  split; [rewrite Hok; tauto |].
  split; [exact Hvalue |]. split; [exact Htype |].
  intros e He. destruct (Hall e He) as [H | [H | [H | H]]]; auto.
  subst e. apply Hruntime in He. lia.
Qed.

Lemma update_outcomes_witness :
  (1 <= 32767)%Z /\ characterisable sound_polygon /\
  exists row : Row, update sound_polygon 1 = Ok row.
Proof.
  assert (H1 : (1 <= 32767)%Z) by lia.
  split; [exact H1 |]. split; [exact sound_polygon_characterisable |].
  exact (proj2 (proj1 (update_outcomes sound_polygon 1 H1))
           sound_polygon_characterisable).
Defined.

(** ** Outcomes of the characterisation run *)

Lemma cursor_loop_Ok_inv (rows : list Feature) (k : nat) (out : list Row) :
  cursor_loop rows (Z.of_nat k) = Ok out ->
  Forall characterisable rows /\
  (rows = [] \/ (Z.of_nat k + Z.of_nat (List.length rows) <= 32768)%Z).
Proof.
  revert k out. induction rows as [| f rows IH]; intros k out.
  - intros _. split; [constructor | now left].
  - cbn [cursor_loop].
    destruct (update f (Z.of_nat k)) as [row |] eqn:Eu; cbn [bind]; [| discriminate].
    replace (Z.of_nat k + 1)%Z with (Z.of_nat (S k)) by lia.
    destruct (cursor_loop rows (Z.of_nat (S k))) as [others |] eqn:El;
      cbn [bind]; [| discriminate].
    intros _.
    assert (Hf : characterisable f /\ (Z.of_nat k <= 32767)%Z)
      by (apply (proj1 (update_outcomes_all f (Z.of_nat k))); exists row; exact Eu).
    destruct (IH _ _ El) as [Hall Hlen].
    split; [constructor; [apply Hf | exact Hall] |].
    right. cbn [List.length]. destruct Hlen as [-> | Hlen]; [simpl; lia | lia].
Qed.

Lemma cursor_loop_exceptions (rows : list Feature) (k : Z) (e : exn) :
  cursor_loop rows k = Raise e ->
  e = ValueError \/ e = ZeroDivisionError \/ e = TypeError \/ e = RuntimeError.
Proof.
  revert k. induction rows as [| f rows IH]; intros k.
  - discriminate.
  - cbn [cursor_loop].
    destruct (update f k) as [row |] eqn:Eu; cbn [bind].
    + destruct (cursor_loop rows (k + 1)) as [others |] eqn:El; cbn [bind];
        [discriminate |].
      intros H. injection H as <-. exact (IH _ El).
    + intros H. injection H as <-.
      exact (proj2 (proj2 (proj2 (proj2 (update_outcomes_all f k)))) _ Eu).
Qed.

(** Every way a characterisation run can end. *)
Lemma analyse_run_outcomes_all (i : Inputs) :
  (run i = Reported NotNegative <-> maximum_value i > 0) /\
  (run i = Reported LicenseError <->
   maximum_value i <= 0 /\ spatial_available i = false) /\
  ((exists out : Outputs, run i = Saved out) <->
   maximum_value i <= 0 /\ spatial_available i = true /\
   Forall characterisable (smoothed_polygons i) /\
   (Z.of_nat (List.length (smoothed_polygons i)) <= 32767)%Z) /\
  (forall e : exn,
      run i = Reported e ->
      e = NotNegative \/ e = LicenseError \/ e = ValueError \/
      e = ZeroDivisionError \/ e = TypeError \/ e = RuntimeError).
Proof.
  unfold run, script.
  destruct (Rgt_dec (maximum_value i) 0) as [Hmax | Hmax].
  { split; [tauto |]. split; [split; [discriminate | lra] |].
    split; [split; [intros [out H]; discriminate | lra] |].
    intros e H. injection H as <-. now left. }
  destruct (spatial_available i) eqn:Hsp; cbn [negb].
  2:{ split; [split; [discriminate | contradiction] |].
      split; [split; [intros _; split; [lra | reflexivity] | reflexivity] |].
      split; [split; [intros [out H]; discriminate | intros (_ & H & _); discriminate] |].
      intros e H. injection H as <-. right. now left. }
  destruct (cursor_loop (smoothed_polygons i) 1) as [polys |] eqn:El; cbn [bind].
  - split; [split; [discriminate | contradiction] |].
    split; [split; [discriminate | intros [_ H]; discriminate] |].
    split; [| discriminate].
    split; [intros _ | intros _; eexists; reflexivity].
    destruct (cursor_loop_Ok_inv _ 1%nat _ El) as [Hall Hlen].
    split; [lra |]. split; [reflexivity |]. split; [exact Hall |].
    destruct Hlen as [-> | Hlen]; [simpl; lia | lia].
  - assert (He := cursor_loop_exceptions _ _ _ El).
    split.
    { split; [| contradiction].
      intros H. injection H as ->.
      destruct He as [He | [He | [He | He]]]; discriminate. }
    split.
    { split; [| intros [_ H]; discriminate].
      intros H. injection H as ->.
      destruct He as [He | [He | [He | He]]]; discriminate. }
    split.
    { split; [intros [out H]; discriminate |].
      intros (_ & _ & Hall & Hlen).
      destruct (cursor_loop_succeeds _ 1 Hall) as [out Hout]; [lia |].
      change (Z.of_nat 1) with 1%Z in Hout. rewrite Hout in El. discriminate. }
    intros e' H. injection H as <-. right. right. exact He.
Qed.

Lemma cursor_loop_no_RuntimeError (rows : list Feature) (k : nat) :
  (Z.of_nat k + Z.of_nat (List.length rows) <= 32768)%Z ->
  cursor_loop rows (Z.of_nat k) <> Raise RuntimeError.
Proof.
  revert k. induction rows as [| f rows IH]; intros k Hk.
  - discriminate.
  - cbn [cursor_loop]. cbn [List.length] in Hk.
    destruct (update f (Z.of_nat k)) as [row |] eqn:Eu; cbn [bind].
    + replace (Z.of_nat k + 1)%Z with (Z.of_nat (S k)) by lia.
      destruct (cursor_loop rows (Z.of_nat (S k))) as [others |] eqn:El; cbn [bind];
        [discriminate |].
      intros H. injection H as ->. apply (IH (S k)); [lia | exact El].
    + intros H. injection H as ->.
      apply (proj1 (proj1 (proj2 (proj2 (proj2 (update_outcomes_all f (Z.of_nat k))))))) in Eu.
      lia.
Qed.

(** X11. How a characterisation run over at most 32767 polygons ends.  A
    positive raster maximum is reported as NotNegative before anything else,
    a missing Spatial Analyst licence comes second; past the two checks the
    three layers are saved exactly when every polygon is characterisable, and
    what is reported otherwise is a ValueError, a ZeroDivisionError or a
    TypeError from the cursor loop. *)
Theorem analyse_run_outcomes (i : Inputs) :
  (Z.of_nat (List.length (smoothed_polygons i)) <= 32767)%Z ->
  (run i = Reported NotNegative <-> maximum_value i > 0) /\
  (run i = Reported LicenseError <->
   maximum_value i <= 0 /\ spatial_available i = false) /\
  ((exists out : Outputs, run i = Saved out) <->
   maximum_value i <= 0 /\ spatial_available i = true /\
   Forall characterisable (smoothed_polygons i)) /\
  (forall e : exn,
      run i = Reported e ->
      e = NotNegative \/ e = LicenseError \/ e = ValueError \/
      e = ZeroDivisionError \/ e = TypeError).
Proof.
  intros Hlen.
  destruct (analyse_run_outcomes_all i) as (Hneg & Hlic & Hsaved & Hall).
  split; [exact Hneg |]. split; [exact Hlic |].
  split; [rewrite Hsaved; tauto |].
  intros e He. destruct (Hall e He) as [H | [H | [H | [H | [H | H]]]]]; auto 6.
  subst e. exfalso.
  unfold run, script in He.
  destruct (Rgt_dec (maximum_value i) 0); [discriminate |].
  destruct (negb (spatial_available i)); [discriminate |].
  destruct (cursor_loop (smoothed_polygons i) 1) as [polys | e] eqn:El; cbn [bind] in He;
    [discriminate |].
  injection He as ->.
  apply (cursor_loop_no_RuntimeError (smoothed_polygons i) 1); [lia | exact El].
Qed.

Lemma analyse_run_outcomes_witness :
  (Z.of_nat (List.length (smoothed_polygons (sample_run [sound_polygon]))) <= 32767)%Z /\
  maximum_value (sample_run [sound_polygon]) <= 0 /\
  spatial_available (sample_run [sound_polygon]) = true /\
  Forall characterisable (smoothed_polygons (sample_run [sound_polygon])) /\
  exists out : Outputs, run (sample_run [sound_polygon]) = Saved out.
Proof.
  assert (H0 : (Z.of_nat (List.length (smoothed_polygons (sample_run [sound_polygon])))
                <= 32767)%Z) by (simpl; lia).
  assert (H1 : maximum_value (sample_run [sound_polygon]) <= 0) by (simpl; lra).
  assert (H2 : spatial_available (sample_run [sound_polygon]) = true) by reflexivity.
  assert (H3 : Forall characterisable (smoothed_polygons (sample_run [sound_polygon])))
    by (constructor; [exact sound_polygon_characterisable | constructor]).
  repeat (split; [assumption |]).
  exact (proj2 (proj1 (proj2 (proj2 (analyse_run_outcomes (sample_run [sound_polygon]) H0))))
           (conj H1 (conj H2 H3))).
Defined.

(** ** The saved layers *)

Lemma In_DeleteField_SpatialJoin (pts : list DeepPoint) (polys : list Row) (p : OutPoint) :
  In p (DeleteField_management (SpatialJoin_analysis pts polys)) ->
  exists q : DeepPoint, In q pts /\ where_ p = location (point q).
Proof.
  unfold DeleteField_management, SpatialJoin_analysis.
  intros Hin. apply in_map_iff in Hin. destruct Hin as (j & <- & Hj).
  apply In_SpatialJoin_from in Hj. destruct Hj as (_ & _ & q & Hq & Hl).
  exists q. split; [exact Hq | exact Hl].
Qed.

(** X12. In a run that saves its layers there is one polygon and one
    centroid per input polygon; every deepest point sits on a cell the depth
    locator selected and carries either no DEP_ID (it lies in no polygon) or
    the DEP_ID of a saved polygon; every DEP_ID the spatial join produced
    survives the removal of duplicates; and the deepest-point layer has at
    most one point more than there are polygons. *)
Theorem saved_layers (i : Inputs) (out : Outputs) :
  script i = Ok out ->
  let located := deepest_point (zonal_min i) (zonal_max i) (bathy_dataset i) in
  let joined_points :=
    DeleteField_management (SpatialJoin_analysis located (Depression_Polygons out)) in
  List.length (Depression_Polygons out) = List.length (smoothed_polygons i) /\
  List.length (Depression_Centroid out) = List.length (smoothed_polygons i) /\
  (forall p : OutPoint,
      In p (Depression_Deepest_Point out) ->
      (exists q : DeepPoint, In q located /\ where_ p = location (point q)) /\
      (point_DEP_ID p = None \/
       exists r : Row,
         In r (Depression_Polygons out) /\ point_DEP_ID p = Some (DEP_ID r))) /\
  (forall p : OutPoint,
      In p joined_points ->
      In (point_DEP_ID p) (map point_DEP_ID (Depression_Deepest_Point out))) /\
  (List.length (Depression_Deepest_Point out)
   <= S (List.length (smoothed_polygons i)))%nat.
Proof.
  intros Hscript located joined_points.
  apply script_inv in Hscript. destruct Hscript as (Hloop & Hdeep & Hcent).
  apply (cursor_loop_inv _ 1%nat) in Hloop. destruct Hloop as (_ & Hshapes & _).
  assert (Hlen : List.length (Depression_Polygons out)
                 = List.length (smoothed_polygons i)).
  { rewrite <- (length_map SHAPE), Hshapes, length_map. reflexivity. }
  destruct (DeleteIdentical_seen_spec joined_points []) as (Hnd & Hfirst & Hall).
  fold (DeleteIdentical_management joined_points) in Hnd, Hfirst, Hall.
  assert (Hdeep' : Depression_Deepest_Point out
                   = DeleteIdentical_management joined_points) by exact Hdeep.
  rewrite <- Hdeep' in Hnd, Hfirst, Hall.
  assert (Hkeys : forall p : OutPoint,
             In p (Depression_Deepest_Point out) ->
             (exists q : DeepPoint, In q located /\ where_ p = location (point q)) /\
             (point_DEP_ID p = None \/
              exists r : Row,
                In r (Depression_Polygons out) /\ point_DEP_ID p = Some (DEP_ID r))).
  { intros p Hp.
    destruct (Hfirst p Hp) as (_ & before & after & Hsplit & _).
    assert (Hin : In p joined_points) by (rewrite Hsplit; apply in_elt).
    split; [exact (In_DeleteField_SpatialJoin _ _ _ Hin) |].
    unfold point_DEP_ID. destruct (fields p) as [m |] eqn:Hm; [| now left].
    right. destruct (joined_fields _ _ p m Hin Hm) as (r & Hr & _ & Hmr).
    exists r. split; [exact Hr |]. rewrite Hmr. reflexivity. }
  split; [exact Hlen |].
  split; [rewrite Hcent; unfold FeatureToPoint_management; rewrite length_map; exact Hlen |].
  split; [exact Hkeys |].
  split.
  { intros p Hp. destruct (Hall p Hp) as [[] | H]. exact H. }
  rewrite <- Hlen.
  rewrite <- (length_map point_DEP_ID).
  replace (S (List.length (Depression_Polygons out)))
    with (List.length (None :: map (fun r => Some (DEP_ID r)) (Depression_Polygons out)))
    by (simpl; rewrite length_map; reflexivity).
  apply NoDup_incl_length; [exact Hnd |].
  intros key Hkey. apply in_map_iff in Hkey. destruct Hkey as (p & <- & Hp).
  destruct (Hkeys p Hp) as [_ [Hnone | (r & Hr & Hsome)]].
  - left. symmetry. exact Hnone.
  - right. rewrite Hsome. apply in_map_iff. exists r. split; [reflexivity | exact Hr].
Qed.

Lemma saved_layers_witness :
  exists out : Outputs,
    script (sample_run [sound_polygon; rectangle (PyInt 2)]) = Ok out /\
    List.length (Depression_Polygons out) = 2%nat /\
    List.length (Depression_Centroid out) = 2%nat /\
    (List.length (Depression_Deepest_Point out) <= 3)%nat.
Proof.
  destruct (script_succeeds (sample_run [sound_polygon; rectangle (PyInt 2)]))
    as [out Hout].
  - simpl. lra.
  - reflexivity.
  - constructor; [exact sound_polygon_characterisable |].
    constructor; [| constructor].
    apply rectangle_characterisable. simpl. lra.
  - simpl. lia.
  - exists out. split; [exact Hout |].
    destruct (saved_layers _ out Hout) as (H1 & H2 & _ & _ & H3).
    split; [exact H1 |]. split; [exact H2 | exact H3].
Defined.

(** ** The depth locator inside a zone *)

(** X13. Inside a zone, that is for a cell whose elevation lies between the
    zonal minimum and the zonal maximum, the cell becomes a deepest point
    exactly when it is less than 0.001 above the zonal minimum; a cell at
    the zonal minimum always does, so a zone can yield several points. *)
Theorem deepest_point_in_zone (zonal_min zonal_max bathy : Raster)
    (cell : Location) (zmax zmin elevation : R) :
  sample zonal_max cell = Some zmax ->
  sample zonal_min cell = Some zmin ->
  sample bathy cell = Some elevation ->
  zmin <= elevation <= zmax ->
  ((exists p : DeepPoint,
       In p (deepest_point zonal_min zonal_max bathy) /\ location (point p) = cell) <->
   elevation - zmin < 0.001) /\
  (elevation = zmin ->
   In {| point := {| location := cell; GRID_CODE := zmax - zmin |};
         DEPTH := Some zmin |}
      (deepest_point zonal_min zonal_max bathy)).
Proof.
  intros HM Hm He [Hlo Hhi].
  assert (Habs : Rabs (Rabs (zmax - elevation) - Rabs (zmax - zmin)) = elevation - zmin).
  { rewrite (Rabs_pos_eq (zmax - elevation)) by lra.
    rewrite (Rabs_pos_eq (zmax - zmin)) by lra.
    rewrite Rabs_left1 by lra. ring. }
  split.
  - split.
    + intros (p & Hin & Hl). apply In_deepest_point in Hin. destruct Hin as [Hs _].
      rewrite sample_depression_depth, Hl, HM, He, Hm in Hs.
      destruct (Rlt_dec _ 0.001) as [Hlt | _]; [| discriminate].
      rewrite Habs in Hlt. exact Hlt.
    + intros Hlt.
      exists {| point := {| location := cell; GRID_CODE := Rabs (zmax - zmin) |};
                DEPTH := Some elevation |}.
      split; [| reflexivity].
      apply In_deepest_point. cbn. split; [| symmetry; exact He].
      rewrite sample_depression_depth, HM, He, Hm.
      destruct (Rlt_dec _ 0.001) as [_ | Hn]; [reflexivity |].
      exfalso. apply Hn. rewrite Habs. exact Hlt.
  - intros Heq. subst elevation.
    apply In_deepest_point. cbn. split; [| symmetry; exact He].
    rewrite sample_depression_depth, HM, He, Hm.
    destruct (Rlt_dec _ 0.001) as [_ | Hn].
    + rewrite (Rabs_pos_eq (zmax - zmin)) by lra. reflexivity.
    + exfalso. apply Hn. rewrite Habs. lra.
Qed.

Lemma deepest_point_in_zone_witness :
  sample two_cells_max 0%nat = Some (-5) /\
  sample two_cells_min 0%nat = Some (-10) /\
  sample two_cells 0%nat = Some (-10) /\
  -10 <= -10 <= -5 /\
  In {| point := {| location := 0%nat; GRID_CODE := -5 - -10 |}; DEPTH := Some (-10) |}
     (deepest_point two_cells_min two_cells_max two_cells).
Proof.
  assert (H1 : sample two_cells_max 0%nat = Some (-5)) by reflexivity.
  assert (H2 : sample two_cells_min 0%nat = Some (-10)) by reflexivity.
  assert (H3 : sample two_cells 0%nat = Some (-10)) by reflexivity.
  assert (H4 : -10 <= -10 <= -5) by lra.
  repeat (split; [assumption |]).
  exact (proj2 (deepest_point_in_zone two_cells_min two_cells_max two_cells
                  0%nat (-5) (-10) (-10) H1 H2 H3 H4) eq_refl).
Defined.

Lemma RasterToPoint_from_locations (r : Raster) (k : nat) :
  NoDup (map location (RasterToPoint_from k r)) /\
  forall p : Point, In p (RasterToPoint_from k r) -> (k <= location p)%nat.
Proof.
  revert k. induction r as [| c r IH]; intros k.
  - simpl. split; [constructor | intros p []].
  - destruct (IH (S k)) as [Hnd Hge].
    destruct c as [v |]; simpl.
    + split.
      * constructor; [| exact Hnd].
        intros Hin. apply in_map_iff in Hin. destruct Hin as (p & Hl & Hp).
        apply Hge in Hp. lia.
      * intros p [<- | Hp]; [simpl; lia | apply Hge in Hp; lia].
    + split; [exact Hnd |]. intros p Hp. apply Hge in Hp. lia.
Qed.

(** X14. The depth locator makes at most one point per raster cell, and
    only on cells where the bathymetry has data; there are never more points
    than the bathymetry raster has cells. *)
Theorem deepest_point_cells (zonal_min zonal_max bathy : Raster) :
  NoDup (map (fun p => location (point p)) (deepest_point zonal_min zonal_max bathy)) /\
  (forall p : DeepPoint,
      In p (deepest_point zonal_min zonal_max bathy) ->
      (location (point p) < List.length bathy)%nat /\ DEPTH p <> None) /\
  (List.length (deepest_point zonal_min zonal_max bathy) <= List.length bathy)%nat.
Proof.
  assert (Hnd : NoDup (map (fun p => location (point p))
                           (deepest_point zonal_min zonal_max bathy))).
  { unfold deepest_point, ExtractMultiValuesToPoints, RasterToPoint_conversion.
    rewrite map_map. cbn [point].
    apply (RasterToPoint_from_locations _ 0). }
  assert (Hin : forall p : DeepPoint,
             In p (deepest_point zonal_min zonal_max bathy) ->
             (location (point p) < List.length bathy)%nat /\ DEPTH p <> None).
  { intros p Hp. apply In_deepest_point in Hp. destruct Hp as [Hs Hd].
    rewrite sample_depression_depth in Hs.
    destruct (sample zonal_max (location (point p))); [| discriminate].
    destruct (sample bathy (location (point p))) as [b |] eqn:Hb; [| discriminate].
    split; [| rewrite Hd; discriminate].
    apply nth_error_Some. unfold sample in Hb.
    destruct (nth_error bathy (location (point p))); discriminate. }
  split; [exact Hnd |]. split; [exact Hin |].
  rewrite <- (length_map (fun p => location (point p))).
  replace (List.length bathy) with (List.length (seq 0 (List.length bathy)))
    by apply length_seq.
  apply NoDup_incl_length; [exact Hnd |].
  intros l Hl. apply in_map_iff in Hl. destruct Hl as (p & <- & Hp).
  apply in_seq. destruct (Hin p Hp) as [Hlt _]. lia.
Qed.

Lemma lowest_cell_located :
  In lowest_cell (deepest_point two_cells_min two_cells_max two_cells).
Proof.
  apply In_deepest_point. split; [| reflexivity].
  rewrite sample_depression_depth. unfold sample. simpl.
  destruct (Rlt_dec _ 0.001) as [_ | Hn]; [reflexivity |].
  exfalso. apply Hn.
  replace (-5 - -10) with 5 by ring.
  rewrite (Rabs_pos_eq 5) by lra.
  replace (5 - 5) with 0 by ring. rewrite Rabs_R0. lra.
Qed.

Lemma deepest_point_cells_witness :
  In lowest_cell (deepest_point two_cells_min two_cells_max two_cells) /\
  (location (point lowest_cell) < List.length two_cells)%nat /\
  DEPTH lowest_cell <> None.
Proof.
  split; [exact lowest_cell_located |].
  exact (proj1 (proj2 (deepest_point_cells two_cells_min two_cells_max two_cells))
           lowest_cell lowest_cell_located).
Defined.

(** ** Outcomes of the identification run *)

Lemma identify_saves (i : Identify.Inputs) :
  Identify.maximum i <= 0 -> Identify.spatial_available i = true ->
  Identify.run i
  = Identify.Saved (Identify.SpatialJoin_analysis (Identify.MakeFeatureLayer_management i)).
Proof.
  intros Hmax Hsp. unfold Identify.run.
  rewrite identify_script_checked by assumption. reflexivity.
Qed.

Lemma identify_saved_inv (i : Identify.Inputs) (out : list Identify.Polygon) :
  Identify.run i = Identify.Saved out ->
  Identify.maximum i <= 0 /\ Identify.spatial_available i = true /\
  out = Identify.SpatialJoin_analysis (Identify.MakeFeatureLayer_management i).
Proof.
  unfold Identify.run, Identify.script.
  destruct (Rgt_dec (Identify.maximum i) 0) as [| Hm]; [discriminate |].
  destruct (Identify.spatial_available i); [| discriminate]. cbn [negb].
  cbv zeta. unfold Identify.Result_lt_int.
  intros H. injection H as <-. split; [lra |]. split; reflexivity.
Qed.

(** X15. How the identification tool ends.  A parameter text that [int]
    rejects raises ValueError before anything else, and nothing else raises
    it; with both parameters read, a positive raster maximum raises
    NotNegative, a missing licence comes second, and past the two checks,
    when some raster polygon has its area within the bounds, the tool
    returns the joined polygons, which are those the where clause keeps.
    NoFeatures is never raised. *)
Theorem identify_run_outcomes (z_limit_text max_area_text : option Z)
    (i : Identify.Inputs) :
  (Identify.tool z_limit_text max_area_text i = Raise ValueError <->
   z_limit_text = None \/ max_area_text = None) /\
  (forall z m : Z,
      z_limit_text = Some z -> max_area_text = Some m ->
      (Identify.tool z_limit_text max_area_text i = Raise NotNegative <->
       Identify.maximum i > 0) /\
      (Identify.tool z_limit_text max_area_text i = Raise LicenseError <->
       Identify.maximum i <= 0 /\ Identify.spatial_available i = false) /\
      (Identify.maximum i <= 0 -> Identify.spatial_available i = true ->
       forall c : Identify.Candidate,
         In c (Identify.raster_polygons i) ->
         (2 * Identify.cell_size i) ^ 2 <= Identify.SHAPE_area c <= IZR m ->
         exists out : list Identify.Polygon,
           Identify.tool z_limit_text max_area_text i = Ok out /\
           map Identify.candidate out
           = Identify.MakeFeatureLayer_management (Identify.with_parameters z m i) /\
           In c (map Identify.candidate out))) /\
  Identify.tool z_limit_text max_area_text i <> Raise NoFeatures.
Proof.
  unfold Identify.tool.
  destruct z_limit_text as [z |]; cbn [Identify.int bind].
  2:{ split; [split; [intros _; now left | reflexivity] |].
      split; [intros z m H; discriminate | discriminate]. }
  destruct max_area_text as [m |]; cbn [Identify.int bind].
  2:{ split; [split; [intros _; now right | reflexivity] |].
      split; [intros z' m H H'; discriminate | discriminate]. }
  set (parsed := Identify.with_parameters z m i).
  assert (Hscript : Identify.script parsed =
                    if Rgt_dec (Identify.maximum i) 0 then Raise NotNegative
                    else if negb (Identify.spatial_available i) then Raise LicenseError
                    else Ok (Identify.SpatialJoin_analysis
                               (Identify.MakeFeatureLayer_management parsed)))
    by reflexivity.
  split; [| split; [| apply identify_never_NoFeatures]].
  - rewrite Hscript. split.
    + destruct (Rgt_dec (Identify.maximum i) 0); [discriminate |].
      destruct (negb (Identify.spatial_available i)); discriminate.
    + intros [H | H]; discriminate.
  - intros z' m' Hz Hm'. injection Hz as <-. injection Hm' as <-.
    fold parsed. rewrite Hscript.
    destruct (Rgt_dec (Identify.maximum i) 0) as [Hmax | Hmax].
    + split; [tauto |]. split; [split; [discriminate | lra] | lra].
    + destruct (Identify.spatial_available i); cbn [negb].
      * split; [split; [discriminate | contradiction] |].
        split; [split; [discriminate | intros [_ H]; discriminate] |].
        intros _ _ c Hc Hr. eexists. split; [reflexivity |].
        assert (Hmap : map Identify.candidate
                         (Identify.SpatialJoin_analysis
                            (Identify.MakeFeatureLayer_management parsed))
                       = Identify.MakeFeatureLayer_management parsed).
        { unfold Identify.SpatialJoin_analysis. rewrite map_map. cbn. apply map_id. }
        rewrite Hmap. split; [reflexivity |].
        apply In_MakeFeatureLayer. split; [exact Hc | exact Hr].
      * split; [split; [discriminate | contradiction] |].
        split; [split; [intros _; split; [lra | reflexivity] | reflexivity] |].
        intros _ H. discriminate.
Qed.

Lemma identify_run_outcomes_witness :
  Some 5%Z = Some 5%Z /\ Some 100%Z = Some 100%Z /\
  Identify.maximum one_in_range <= 0 /\
  Identify.spatial_available one_in_range = true /\
  exists out : list Identify.Polygon,
    Identify.tool (Some 5%Z) (Some 100%Z) one_in_range = Ok out /\
    In {| Identify.SHAPE_area := 40; Identify.zonal_points := [-2; -7; -4] |}
       (map Identify.candidate out).
Proof.
  assert (H1 : Identify.maximum one_in_range <= 0) by (simpl; lra).
  assert (H2 : Identify.spatial_available one_in_range = true) by reflexivity.
  split; [reflexivity |]. split; [reflexivity |].
  split; [exact H1 |]. split; [exact H2 |].
  destruct (proj2 (proj2 (proj1 (proj2 (identify_run_outcomes (Some 5%Z) (Some 100%Z)
                                          one_in_range))
                            5%Z 100%Z eq_refl eq_refl)) H1 H2
              {| Identify.SHAPE_area := 40; Identify.zonal_points := [-2; -7; -4] |})
    as (out & Hout & _ & Hin).
  - simpl. tauto.
  - simpl. lra.
  - exists out. split; [exact Hout | exact Hin].
Defined.

Lemma MINIMUM_least (values : list R) :
  match Identify.MINIMUM values with
  | None => values = []
  | Some v => In v values /\ forall w : R, In w values -> v <= w
  end.
Proof.
  destruct values as [| v rest]; [reflexivity |].
  cbn [Identify.MINIMUM].
  assert (H : forall (l : list R) (a : R),
             (fold_left Rmin l a = a \/ In (fold_left Rmin l a) l) /\
             fold_left Rmin l a <= a /\
             forall w : R, In w l -> fold_left Rmin l a <= w).
  { induction l as [| x l IH]; intros a.
    - simpl. split; [now left |]. split; [lra | intros w []].
    - simpl. destruct (IH (Rmin a x)) as (Hin & Hle & Hall).
      assert (Hm := Rmin_l a x). assert (Hm' := Rmin_r a x).
      split; [| split].
      + destruct Hin as [Heq | Hin]; [| right; right; exact Hin].
        rewrite Heq. unfold Rmin. destruct (Rle_dec a x); [now left | right; now left].
      + lra.
      + intros w [<- | Hw]; [lra | apply Hall; exact Hw]. }
  destruct (H rest v) as (Hin & Hle & Hall).
  split.
  - destruct Hin as [Heq | Hin]; [left; symmetry; exact Heq | right; exact Hin].
  - intros w [<- | Hw]; [exact Hle | apply Hall; exact Hw].
Qed.

(** X16. The polygons an identification run saves are the raster polygons
    that pass the where clause, in their order and no more numerous; each
    has its area inside [(2 cell_size)^2, max_area], and a POCK_DEP that is
    the least of the zonal values joined to it (merge rule MINIMUM, the
    deepest point), null only when no point was joined. *)
Theorem identify_saved_polygons (i : Identify.Inputs) (out : list Identify.Polygon) :
  Identify.run i = Identify.Saved out ->
  map Identify.candidate out = filter (Identify.sql_exp i) (Identify.raster_polygons i) /\
  (List.length out <= List.length (Identify.raster_polygons i))%nat /\
  forall p : Identify.Polygon,
    In p out ->
    In (Identify.candidate p) (Identify.raster_polygons i) /\
    (2 * Identify.cell_size i) ^ 2 <= Identify.SHAPE_area (Identify.candidate p)
                                   <= IZR (Identify.max_area i) /\
    match Identify.POCK_DEP p with
    | None => Identify.zonal_points (Identify.candidate p) = []
    | Some depth =>
        In depth (Identify.zonal_points (Identify.candidate p)) /\
        forall v : R, In v (Identify.zonal_points (Identify.candidate p)) -> depth <= v
    end.
Proof.
  intros Hrun. apply identify_saved_inv in Hrun. destruct Hrun as (_ & _ & ->).
  assert (Hmap : map Identify.candidate
                   (Identify.SpatialJoin_analysis (Identify.MakeFeatureLayer_management i))
                 = Identify.MakeFeatureLayer_management i).
  { unfold Identify.SpatialJoin_analysis. rewrite map_map. cbn. apply map_id. }
  split; [exact Hmap |].
  split.
  { unfold Identify.SpatialJoin_analysis. rewrite length_map.
    unfold Identify.MakeFeatureLayer_management. apply filter_length_le. }
  intros p Hp. unfold Identify.SpatialJoin_analysis in Hp.
  apply in_map_iff in Hp. destruct Hp as (c & <- & Hc). cbn.
  apply In_MakeFeatureLayer in Hc. destruct Hc as [Hc Hr].
  split; [exact Hc |]. split; [exact Hr |].
  apply MINIMUM_least.
Qed.

Lemma one_in_range_saved :
  Identify.run one_in_range
  = Identify.Saved (Identify.SpatialJoin_analysis
                      (Identify.MakeFeatureLayer_management one_in_range)).
Proof. apply identify_saves; [simpl; lra | reflexivity]. Qed.

Lemma identify_saved_polygons_witness :
  Identify.run one_in_range
  = Identify.Saved (Identify.SpatialJoin_analysis
                      (Identify.MakeFeatureLayer_management one_in_range)) /\
  (List.length (Identify.SpatialJoin_analysis
                  (Identify.MakeFeatureLayer_management one_in_range))
   <= List.length (Identify.raster_polygons one_in_range))%nat.
Proof.
  split; [exact one_in_range_saved |].
  exact (proj1 (proj2 (identify_saved_polygons one_in_range _ one_in_range_saved))).
Defined.

(** X17. A polygon made of whole raster cells passes the size filter exactly
    when it has at least four cells and its area does not exceed max_area:
    depressions of one, two or three cells are always removed. *)
Theorem size_filter_cells (i : Identify.Inputs) (c : Identify.Candidate) (cells : nat) :
  Identify.cell_size i > 0 ->
  Identify.SHAPE_area c = INR cells * Identify.cell_size i ^ 2 ->
  (Identify.sql_exp i c = true <->
   (4 <= cells)%nat /\ INR cells * Identify.cell_size i ^ 2 <= IZR (Identify.max_area i)) /\
  ((cells < 4)%nat -> ~ In c (Identify.MakeFeatureLayer_management i)).
Proof.
  intros Hcs Harea.
  assert (Hsq : 0 < Identify.cell_size i ^ 2) by (simpl; nra).
  assert (H4 : INR 4 = 4) by (simpl; ring).
  assert (Hiff : Identify.sql_exp i c = true <->
                 (4 <= cells)%nat /\
                 INR cells * Identify.cell_size i ^ 2 <= IZR (Identify.max_area i)).
  { rewrite sql_exp_true, Harea.
    replace ((2 * Identify.cell_size i) ^ 2) with (4 * Identify.cell_size i ^ 2) by ring.
    split.
    - intros [Hlo Hhi]. split; [| exact Hhi].
      apply INR_le. rewrite H4.
      apply Rmult_le_reg_r with (Identify.cell_size i ^ 2); assumption.
    - intros [Hk Hhi]. split; [| exact Hhi].
      apply le_INR in Hk. rewrite H4 in Hk.
      apply Rmult_le_compat_r; [lra | exact Hk]. }
  split; [exact Hiff |].
  intros Hlt Hin. unfold Identify.MakeFeatureLayer_management in Hin.
  apply filter_In in Hin. destruct Hin as [_ Hsql].
  apply Hiff in Hsql. lia.
Qed.

Lemma size_filter_cells_witness :
  Identify.cell_size one_in_range > 0 /\
  Identify.SHAPE_area {| Identify.SHAPE_area := 12; Identify.zonal_points := [] |}
  = INR 3 * Identify.cell_size one_in_range ^ 2 /\
  (3 < 4)%nat /\
  ~ In {| Identify.SHAPE_area := 12; Identify.zonal_points := [] |}
       (Identify.MakeFeatureLayer_management one_in_range).
Proof.
  assert (H1 : Identify.cell_size one_in_range > 0) by (simpl; lra).
  assert (H2 : Identify.SHAPE_area
                 {| Identify.SHAPE_area := 12; Identify.zonal_points := [] |}
               = INR 3 * Identify.cell_size one_in_range ^ 2) by (simpl; ring).
  assert (H3 : (3 < 4)%nat) by lia.
  repeat (split; [assumption |]).
  exact (proj2 (size_filter_cells one_in_range _ 3 H1 H2) H3).
Defined.

(** X18. Crossed bounds: when max_area is below (2 cell_size)^2 the where
    clause holds for no area at all, and the feature layer is empty whatever
    the raster holds. *)
Theorem crossed_bounds_keep_nothing (i : Identify.Inputs) :
  IZR (Identify.max_area i) < (2 * Identify.cell_size i) ^ 2 ->
  (forall c : Identify.Candidate, Identify.sql_exp i c = false) /\
  Identify.MakeFeatureLayer_management i = [].
Proof.
  intros Hcross.
  assert (Hnone : forall c : Identify.Candidate, Identify.sql_exp i c = false).
  { intros c. destruct (Identify.sql_exp i c) eqn:E; [| reflexivity].
    apply sql_exp_true in E. lra. }
  split; [exact Hnone |].
  apply MakeFeatureLayer_empty. intros c _ [Hlo Hhi]. lra.
Qed.

Lemma crossed_bounds_keep_nothing_witness :
  IZR (Identify.max_area crossed_bounds) < (2 * Identify.cell_size crossed_bounds) ^ 2 /\
  Identify.MakeFeatureLayer_management crossed_bounds = [].
Proof.
  assert (H : IZR (Identify.max_area crossed_bounds)
              < (2 * Identify.cell_size crossed_bounds) ^ 2) by (simpl; lra).
  split; [exact H | exact (proj2 (crossed_bounds_keep_nothing crossed_bounds H))].
Defined.

(** X19. Raising max_area never loses a polygon: with the same raster and
    cell size, every polygon kept under the smaller bound is kept under the
    larger one, so a run that saved polygons still does. *)
Theorem larger_max_area_keeps_more (i j : Identify.Inputs) :
  Identify.raster_polygons j = Identify.raster_polygons i ->
  Identify.cell_size j = Identify.cell_size i ->
  Identify.maximum j = Identify.maximum i ->
  Identify.spatial_available j = Identify.spatial_available i ->
  (Identify.max_area i <= Identify.max_area j)%Z ->
  incl (Identify.MakeFeatureLayer_management i) (Identify.MakeFeatureLayer_management j) /\
  ((exists out : list Identify.Polygon, Identify.run i = Identify.Saved out) ->
   exists out : list Identify.Polygon, Identify.run j = Identify.Saved out).
Proof.
  intros Hpolys Hcs Hmax Hsp Hle.
  assert (Hincl : incl (Identify.MakeFeatureLayer_management i)
                       (Identify.MakeFeatureLayer_management j)).
  { intros c Hc. apply In_MakeFeatureLayer in Hc. destruct Hc as [Hc [Hlo Hhi]].
    apply In_MakeFeatureLayer. rewrite Hpolys, Hcs. split; [exact Hc |].
    split; [exact Hlo |]. apply IZR_le in Hle. lra. }
  split; [exact Hincl |].
  intros [out Hout].
  destruct (identify_saved_inv i out Hout) as (Hm & Hs & _).
  eexists. apply (identify_saves j); [lra | congruence].
Qed.

Lemma larger_max_area_keeps_more_witness :
  (Identify.max_area one_in_range <= Identify.max_area one_in_range_wider)%Z /\
  incl (Identify.MakeFeatureLayer_management one_in_range)
       (Identify.MakeFeatureLayer_management one_in_range_wider).
Proof.
  assert (H : (Identify.max_area one_in_range
               <= Identify.max_area one_in_range_wider)%Z) by (simpl; lia).
  split; [exact H |].
  exact (proj1 (larger_max_area_keeps_more one_in_range one_in_range_wider
                  eq_refl eq_refl eq_refl eq_refl H)).
Defined.

(** ** Messages *)

Lemma no_completion_after_exception (e : exn) :
  ~ In (Messages.AddMessage "GeoDepression analysis complete.")
       (Messages.analyse_except e ++ Messages.finally).
Proof.
  destruct e; simpl; intros H;
    repeat match goal with
      | H : _ \/ _ |- _ => destruct H as [H | H]
      end; try discriminate; exact H.
Qed.

(** X20. What the characterisation script tells the user.  A run that saves
    its layers adds no error, and its last message before the two cleanup
    messages is the completion message.  A run that fails adds the error of
    its exception right before the cleanup messages, no error before it, and
    never the completion message.  The two cleanup messages of the
    [finally] block close every run. *)
Theorem analyse_messages (i : Inputs) (symbology : bool) :
  (forall out : Outputs,
      run i = Saved out ->
      forallb (fun m => negb (is_error m)) (Messages.analyse i symbology) = true /\
      exists before : list Messages.gp,
        Messages.analyse i symbology
        = before ++ Messages.AddMessage "GeoDepression analysis complete."
                 :: Messages.finally) /\
  (forall e : exn,
      run i = Reported e ->
      exists before : list Messages.gp,
        Messages.analyse i symbology
        = before ++ Messages.analyse_except e ++ Messages.finally /\
        forallb (fun m => negb (is_error m)) before = true /\
        ~ In (Messages.AddMessage "GeoDepression analysis complete.")
             (Messages.analyse i symbology)).
Proof.
  unfold run, script, Messages.analyse.
  destruct (Rgt_dec (maximum_value i) 0) as [Hmax | Hmax].
  { split; [discriminate |]. intros e H. injection H as <-.
    exists [Messages.AddMessage "Bathy statistics calculated."].
    split; [reflexivity |]. split; [reflexivity |].
    simpl. intros H.
    repeat match goal with
      | H : _ \/ _ |- _ => destruct H as [H | H]
      end; try discriminate; exact H. }
  destruct (negb (spatial_available i)).
  { split; [discriminate |]. intros e H. injection H as <-.
    exists [Messages.AddMessage "Bathy statistics calculated."].
    split; [reflexivity |]. split; [reflexivity |].
    simpl. intros H.
    repeat match goal with
      | H : _ \/ _ |- _ => destruct H as [H | H]
      end; try discriminate; exact H. }
  destruct (cursor_loop (smoothed_polygons i) 1) as [polys | e0]; cbn [bind].
  - split; [| discriminate]. intros out _.
    destruct symbology.
    + split; [reflexivity |].
      exists [Messages.AddMessage "Bathy statistics calculated.";
              Messages.AddMessage "Spatial Analyst extension successfully checked out.";
              Messages.AddMessage "Deepest point located.";
              Messages.AddMessage "Polygons smoothed.";
              Messages.AddMessage "Area, perimeter, major axis, minor axis, eccentricity, azimuth, diamater/depth ratioand thinness ratio calculated.";
              Messages.AddMessage "Deepest point and depression polygon spatial Join Completed.";
              Messages.AddMessage "Centroid point created."].
      reflexivity.
    + split; [reflexivity |].
      exists [Messages.AddMessage "Bathy statistics calculated.";
              Messages.AddMessage "Spatial Analyst extension successfully checked out.";
              Messages.AddMessage "Deepest point located.";
              Messages.AddMessage "Polygons smoothed.";
              Messages.AddMessage "Area, perimeter, major axis, minor axis, eccentricity, azimuth, diamater/depth ratioand thinness ratio calculated.";
              Messages.AddMessage "Deepest point and depression polygon spatial Join Completed.";
              Messages.AddMessage "Centroid point created.";
              Messages.AddMessage "Symbology not added."].
      reflexivity.
  - split; [discriminate |]. intros e H. injection H as <-.
    exists [Messages.AddMessage "Bathy statistics calculated.";
            Messages.AddMessage "Spatial Analyst extension successfully checked out.";
            Messages.AddMessage "Deepest point located.";
            Messages.AddMessage "Polygons smoothed."].
    split; [reflexivity |]. split; [reflexivity |].
    cbn [app]. intros H.
    repeat (destruct H as [H | H]; [discriminate |]).
    exact (no_completion_after_exception e0 H).
Qed.

Lemma analyse_messages_witness :
  run (sample_run [sound_polygon; flat_polygon]) = Reported ZeroDivisionError /\
  exists before : list Messages.gp,
    Messages.analyse (sample_run [sound_polygon; flat_polygon]) false
    = before ++ [Messages.AddError_args ZeroDivisionError; Messages.AddError_engine]
             ++ Messages.finally.
Proof.
  split; [exact sound_then_flat |].
  destruct (proj2 (analyse_messages (sample_run [sound_polygon; flat_polygon]) false)
              ZeroDivisionError sound_then_flat) as (before & H & _).
  exists before. exact H.
Defined.

(** X21. What the identification script tells the user once its
    parameters are read.  A run that saves polygons adds no error, reports
    the number of polygons it saved as remaining, and ends, before the two
    cleanup messages, with the completion message.  A run that fails adds
    the error of its exception right before the cleanup messages, after
    messages that are no errors, and never the completion message. *)
Theorem identify_messages (i : Identify.Inputs) :
  (forall out : list Identify.Polygon,
      Identify.run i = Identify.Saved out ->
      forallb (fun m => negb (is_error m)) (Messages.identify i) = true /\
      In (Messages.AddMessage ("Polygons out of size range removed. "
                               ++ Messages.str (List.length out)
                               ++ " polygons remaining."))
         (Messages.identify i) /\
      exists before : list Messages.gp,
        Messages.identify i
        = before ++ Messages.AddMessage "GeoDepression identification complete."
                 :: Messages.finally) /\
  (forall e : exn,
      Identify.run i = Identify.Reported e ->
      exists before : list Messages.gp,
        Messages.identify i
        = before ++ Messages.identify_except e ++ Messages.finally /\
        forallb (fun m => negb (is_error m)) before = true /\
        ~ In (Messages.AddMessage "GeoDepression identification complete.")
             (Messages.identify i)).
Proof.
  unfold Identify.run, Identify.script, Messages.identify.
  destruct (Rgt_dec (Identify.maximum i) 0) as [Hmax | Hmax].
  { split; [discriminate |].
    intros e H. injection H as <-.
    exists [Messages.AddMessage "Bathy statistics calculated."].
    split; [reflexivity |]. split; [reflexivity |].
    simpl. intros H.
    repeat match goal with
      | H : _ \/ _ |- _ => destruct H as [H | H]
      end; try discriminate; exact H. }
  destruct (negb (Identify.spatial_available i)).
  { split; [discriminate |].
    intros e H. injection H as <-.
    exists [Messages.AddMessage "Bathy statistics calculated."].
    split; [reflexivity |]. split; [reflexivity |].
    simpl. intros H.
    repeat match goal with
      | H : _ \/ _ |- _ => destruct H as [H | H]
      end; try discriminate; exact H. }
  cbv zeta. unfold Identify.Result_lt_int.
  cbn [Identify.GetCount_management Identify.getOutput].
  set (created := Messages.AddMessage
                    (Messages.str (List.length (Identify.raster_polygons i))
                     ++ " depression polygons created.")).
  split; [| discriminate].
  intros out H. injection H as <-.
  unfold Identify.SpatialJoin_analysis at 1. rewrite length_map.
  split; [reflexivity |].
  split; [cbn [app]; do 6 right; left; reflexivity |].
  exists [Messages.AddMessage "Bathy statistics calculated.";
          Messages.AddMessage "Spatial Analyst extension successfully checked out.";
          Messages.AddMessage "Fill raster created.";
          Messages.AddMessage "Depressions identified.";
          Messages.AddMessage "Raster reclassified.";
          created;
          Messages.AddMessage
            ("Polygons out of size range removed. "
             ++ Messages.str (List.length (Identify.MakeFeatureLayer_management i))
             ++ " polygons remaining.");
          Messages.AddMessage "GeoDepression depth calculated."].
  reflexivity.
Qed.

Lemma identify_messages_witness :
  Identify.run one_in_range
  = Identify.Saved (Identify.SpatialJoin_analysis
                      (Identify.MakeFeatureLayer_management one_in_range)) /\
  forallb (fun m => negb (is_error m)) (Messages.identify one_in_range) = true.
Proof.
  split; [exact one_in_range_saved |].
  exact (proj1 (proj1 (identify_messages one_in_range) _ one_in_range_saved)).
Defined.

(** ** The cursor loop as a whole *)

(** X22. The loop over two lists of polygons one after the other is the loop
    over the first, then the loop over the second with the identifiers
    carrying on where the first stopped; an exception in the first part
    ends the loop before the second part is looked at. *)
Theorem cursor_loop_app (front back : list Feature) (k : Z) :
  cursor_loop (front ++ back) k =
  (rows1 <- cursor_loop front k ;;
   rows2 <- cursor_loop back (k + Z.of_nat (List.length front)) ;;
   Ok (rows1 ++ rows2)) /\
  (forall e : exn,
      cursor_loop front k = Raise e -> cursor_loop (front ++ back) k = Raise e).
Proof.
  assert (Happ : forall (front : list Feature) (k : Z),
             cursor_loop (front ++ back) k =
             (rows1 <- cursor_loop front k ;;
              rows2 <- cursor_loop back (k + Z.of_nat (List.length front)) ;;
              Ok (rows1 ++ rows2))).
  { clear front k. induction front as [| f front IH]; intros k.
    - cbn [app cursor_loop bind List.length]. rewrite Z.add_0_r.
      destruct (cursor_loop back k); reflexivity.
    - cbn [app cursor_loop].
      destruct (update f k) as [row |]; cbn [bind]; [| reflexivity].
      rewrite IH.
      replace (k + 1 + Z.of_nat (List.length front))%Z
        with (k + Z.of_nat (List.length (f :: front)))%Z by (cbn [List.length]; lia).
      destruct (cursor_loop front (k + 1)) as [rows1 |]; cbn [bind]; [| reflexivity].
      destruct (cursor_loop back _) as [rows2 |]; reflexivity. }
  split; [apply Happ |].
  intros e He. rewrite Happ, He. reflexivity.
Qed.

Lemma cursor_loop_app_witness :
  cursor_loop [flat_polygon] 1 = Raise ZeroDivisionError /\
  cursor_loop ([flat_polygon] ++ [sound_polygon]) 1 = Raise ZeroDivisionError.
Proof.
  assert (H : cursor_loop [flat_polygon] 1 = Raise ZeroDivisionError).
  { cbn [cursor_loop].
    rewrite (update_zero_depth flat_polygon 1 (PyFloat 0) 0 0 2 0 2 1 0 1);
      reflexivity. }
  split; [exact H |].
  exact (proj2 (cursor_loop_app [flat_polygon] [sound_polygon] 1) ZeroDivisionError H).
Defined.

Lemma math_hypot_axis (w : R) : 0 <= w -> math_hypot w 0 = w /\ math_hypot 0 w = w
                                          /\ math_hypot (- w) 0 = w /\ math_hypot 0 (- w) = w.
Proof.
  intros Hw. unfold math_hypot.
  replace (w * w + 0 * 0) with (w * w) by ring.
  replace (0 * 0 + w * w) with (w * w) by ring.
  replace (- w * - w + 0 * 0) with (w * w) by ring.
  replace (0 * 0 + - w * - w) with (w * w) by ring.
  rewrite sqrt_square by exact Hw. repeat split.
Qed.

(** X23. For a hull rectangle with its sides along the axes, of width w and
    height h, given from its lower-left corner anticlockwise, the updated
    row has the larger side as MAJ_AXIS and the smaller as MIN_AXIS, and
    its AZIMUTH is 90 when the rectangle is wider than high and 0 when it is
    at least as high as wide (a square included). *)
Theorem axis_aligned_hull (f : Feature) (k : Z) (row : Row) (x y w h : R) :
  0 < w -> 0 < h ->
  Shape.hullRectangle (shape_object f)
  = [x; y; x + w; y; x + w; y + h; x; y + h] ->
  update f k = Ok row ->
  MAJ_AXIS row = Rmax w h /\ MIN_AXIS row = Rmin w h /\
  (h < w -> AZIMUTH row = 90) /\
  (w <= h -> AZIMUTH row = 0).
Proof.
  intros Hw Hh Hhull Hrow.
  destruct (updated_row_axes_aux f k row Hrow)
    as (x1 & y1 & x2 & y2 & x3 & y3 & x4 & y4 & Hhull' & Hmaj & Hmin & Hle & Hgt).
  rewrite Hhull in Hhull'. injection Hhull' as <- <- <- <- <- <- <- <-.
  assert (H1 : math_hypot (x - (x + w)) (y - y) = w).
  { replace (x - (x + w)) with (- w) by ring. replace (y - y) with 0 by ring.
    apply math_hypot_axis. lra. }
  assert (H2 : math_hypot (x + w - (x + w)) (y - (y + h)) = h).
  { replace (x + w - (x + w)) with 0 by ring. replace (y - (y + h)) with (- h) by ring.
    apply math_hypot_axis. lra. }
  rewrite H1, H2 in Hmaj, Hmin, Hle, Hgt.
  split; [exact Hmaj |]. split; [exact Hmin |].
  split.
  - intros Hlt. specialize (Hgt Hlt).
    rewrite azimuth_horizontal in Hgt by lra. injection Hgt as Hgt. symmetry. exact Hgt.
  - intros Hwh. specialize (Hle Hwh).
    rewrite azimuth_north in Hle by lra. injection Hle as Hle. symmetry. exact Hle.
Qed.

Lemma axis_aligned_hull_witness :
  exists row : Row,
    0 < 2 /\ 0 < 1 /\
    Shape.hullRectangle (shape_object sound_polygon)
    = [0; 0; 0 + 2; 0; 0 + 2; 0 + 1; 0; 0 + 1] /\
    update sound_polygon 1 = Ok row /\
    (1 < 2 -> AZIMUTH row = 90).
Proof.
  destruct (update_succeeds sound_polygon 1 sound_polygon_characterisable)
    as [row Hrow]; [lia |].
  exists row.
  assert (H1 : 0 < 2) by lra.
  assert (H2 : 0 < 1) by lra.
  assert (H3 : Shape.hullRectangle (shape_object sound_polygon)
               = [0; 0; 0 + 2; 0; 0 + 2; 0 + 1; 0; 0 + 1]).
  { cbn. repeat (f_equal; try lra). }
  repeat (split; [assumption |]).
  exact (proj1 (proj2 (proj2 (axis_aligned_hull sound_polygon 1 row 0 0 2 1
                                H1 H2 H3 Hrow)))).
Defined.

(** X24. A wide and shallow depression is always labelled IRREGULAR: when
    the mean of the two axes exceeds a hundred times the depth, the
    diameter/depth ratio is above 100 and the label does not depend on the
    thinness ratio. *)
Theorem wide_shallow_is_irregular (f : Feature) (k : Z) (row : Row) :
  update f k = Ok row ->
  (MAJ_AXIS row + MIN_AXIS row) / 2 > 100 * Rabs (float (POCK_DEP row)) ->
  float (DIDP_RAT row) > 100 /\ MORP_CHAR row = IRREGULAR.
Proof.
  intros H. update_ok_cases H. intros Hwide.
  assert (Hd : 0 < Rabs (float d)) by (apply Rabs_pos_lt; exact Hd0).
  assert (Hratio : Rabs ((maj_axis + min_axis) / 2 / float d) > 100).
  { unfold Rdiv at 1. rewrite Rabs_mult, Rabs_inv.
    rewrite (Rabs_pos_eq ((maj_axis + min_axis) / 2)) by lra.
    apply Rmult_lt_reg_r with (Rabs (float d)); [exact Hd |].
    rewrite Rmult_assoc, Rinv_l by lra. lra. }
  split; [exact Hratio |].
  unfold shape_descriptor. cbn [float].
  destruct (Rlt_dec _ 0.5); [reflexivity |].
  destruct (Rgt_dec _ 100); [reflexivity | contradiction].
Qed.

Lemma wide_shallow_is_irregular_witness :
  exists row : Row,
    update (rectangle (PyFloat (1 / 1000))) 1 = Ok row /\
    (MAJ_AXIS row + MIN_AXIS row) / 2 > 100 * Rabs (float (POCK_DEP row)) /\
    MORP_CHAR row = IRREGULAR.
Proof.
  destruct (update_succeeds (rectangle (PyFloat (1 / 1000))) 1) as [row Hrow].
  - apply rectangle_characterisable. simpl. lra.
  - lia.
  - exists row. split; [exact Hrow |].
    assert (Hwide : (MAJ_AXIS row + MIN_AXIS row) / 2
                    > 100 * Rabs (float (POCK_DEP row))).
    { destruct (updated_row_axes_aux _ _ _ Hrow)
        as (x1 & y1 & x2 & y2 & x3 & y3 & x4 & y4 & Hhull & Hmaj & Hmin & _).
      injection Hhull as <- <- <- <- <- <- <- <-.
      assert (H1 : math_hypot (0 - 2) (0 - 0) = 2).
      { replace (0 - 2) with (- 2) by ring. replace (0 - 0) with 0 by ring.
        apply math_hypot_axis. lra. }
      assert (H2 : math_hypot (2 - 2) (0 - 1) = 1).
      { replace (2 - 2) with 0 by ring. replace (0 - 1) with (- 1) by ring.
        apply math_hypot_axis. lra. }
      rewrite H1, H2 in Hmaj, Hmin.
      rewrite Rmax_left in Hmaj by lra. rewrite Rmin_right in Hmin by lra.
      assert (Hd : depth_field (rectangle (PyFloat (1 / 1000))) = Some (POCK_DEP row)).
      { apply (update_inv _ _ _) in Hrow.
        destruct Hrow as (_ & _ & _ & d & Hd & _ & Hp). rewrite Hp. exact Hd. }
      cbn in Hd. injection Hd as Hd. rewrite <- Hd, Hmaj, Hmin. cbn [float].
      rewrite Rabs_pos_eq by lra. lra. }
    split; [exact Hwide |].
    exact (proj2 (wide_shallow_is_irregular _ _ _ Hrow Hwide)).
Defined.
